(** * JAM backend: the JobSpy wrapper script [job_scraper.py]

    A shallow embedding of [src/backend/src/python/job_scraper.py] and the
    properties its specification states about it.

    The script parses its command line, calls the external [scrape_jobs],
    turns every row of the returned DataFrame into a dictionary, and writes
    the list of dictionaries as JSON; on any exception it writes [[]] and
    exits with status 1.

    Conventions of the embedding:
    - a Python [str] that the scrape result holds, and every [str] made
      from one (a value of a listing, the text written to the output file),
      is a [text]: the list of its code points, lone surrogates included;
    - the strings that the script itself spells out or that reach it from
      the command line (keys, column labels, defaults, paths, arguments,
      messages) are [string]s, one [ascii] standing for one character;
      [lit] turns such a string into a [text];
    - a Python [float] is a [spec_float] (IEEE 754 binary64 as in
      [SpecFloat]);
    - a row is the Series that [iterrows] yields, a finite map from column
      label to cell;
    - Python exceptions are values of [exn], and code that may raise lives
      in an exception monad ([result]) or, where it also prints, writes
      files or calls the collaborator, in a state-and-exception monad ([M]);
    - what CPython's [float.__repr__] prints for a finite number and what
      [float(s)] returns for a string [s] are parameters of the model;
    - a file holds the text written to it; writing a text that UTF-8
      cannot encode raises [UnicodeEncodeError], as [f.write] does for a
      file opened with [encoding='utf-8'];
    - the collaborator raises instances of [Exception] only; the file
      system lets the output file be opened for writing, so that [open]
      raises no [OSError]; and [sys.stderr] takes what is printed. *)

From Stdlib Require Import ZArith NArith String Ascii List SpecFloat Lia.
From stdpp Require Import base option gmap strings list pretty.

Set Warnings "-register-all,-abstract-large-number".
Open Scope string_scope.
Open Scope list_scope.
Open Scope Z_scope.

(** ** Texts *)

(** A Python [str] as the list of its code points.  Code points end at
    [0x10FFFF]: a larger number stands for no character, and none occurs
    in a [str]. *)
Abbreviation text := (list N).

(** A string of the script, character by character, as a [text]. *)
Definition lit (s : string) : text :=
  map N_of_ascii (list_ascii_of_string s).

(** A code point that UTF-8 encodes: any but the surrogates
    [0xD800..0xDFFF]. *)
Definition scalar_value (c : N) : bool :=
  ((c <? 0xD800) || (0xDFFF <? c) && (c <=? 0x10FFFF))%N.

(** [s.encode('utf-8')] does not raise. *)
Definition encodable (s : text) : bool := forallb scalar_value s.

(** ** Exceptions *)

(** The exceptions the script can meet.  [TypeError], [ValueError] and
    [OverflowError] are raised by the builtins [bool] and [float];
    [UnicodeEncodeError] by the write of a text that UTF-8 cannot encode;
    [ImportError] by a failing [import]; [ScrapeError msg] is any
    [Exception] raised inside the collaborator, with its [str(e)];
    [SystemExit code] is what [sys.exit(code)] raises.  Only [SystemExit] is
    not an instance of [Exception]. *)
Inductive exn : Type :=
| TypeError
| ValueError
| OverflowError
| UnicodeEncodeError
| ImportError
| ScrapeError (msg : string)
| SystemExit (code : Z).

(** [isinstance(e, Exception)] *)
Definition is_Exception (e : exn) : bool :=
  match e with
  | SystemExit _ => false
  | _ => true
  end.

(** [isinstance(e, ImportError)] *)
Definition is_ImportError (e : exn) : bool :=
  match e with
  | ImportError => true
  | _ => false
  end.

Inductive result (A : Type) : Type :=
| Ok (a : A)
| Raise (e : exn).
Arguments Ok {A} a.
Arguments Raise {A} e.

#[global] Instance result_ret : MRet result := fun A a => Ok a.
#[global] Instance result_bind : MBind result := fun A B f r =>
  match r with
  | Ok a => f a
  | Raise e => Raise e
  end.
#[global] Instance result_fmap : FMap result := fun A B f r =>
  match r with
  | Ok a => Ok (f a)
  | Raise e => Raise e
  end.

(** ** Cells of the DataFrame *)

(** The scalars a cell of the scrape result can hold: [None], [pd.NA], a
    string, a boolean, an integer, a float (NaN and the infinities
    included), or a [datetime.date], kept as its ISO text. *)
Inductive cell : Type :=
| CNone
| CNA
| CStr (s : text)
| CBool (b : bool)
| CInt (n : Z)
| CFloat (x : spec_float)
| CDate (iso : string).

Definition NaN : cell := CFloat S754_nan.

(** [pd.notna(v)] on a scalar: false for [None], [pd.NA] and NaN. *)
Definition notna (v : cell) : bool :=
  match v with
  | CNone | CNA => false
  | CFloat S754_nan => false
  | _ => true
  end.

(** A row as [iterrows] yields it. *)
Abbreviation Series := (gmap string cell).

(** [row.get(key, default)]: the cell under [key], or [default] when the
    row has no such label.  [row.get(key)] is [get row key CNone]. *)
Definition get (row : Series) (key : string) (default : cell) : cell :=
  match row !! key with
  | Some v => v
  | None => default
  end.

(** The tabular result: its column labels and its rows in order. *)
Record DataFrame : Type := {
  columns : list string;
  rows : list Series
}.

(** [jobs_df.empty]: true when either axis has length zero. *)
Definition empty (df : DataFrame) : bool :=
  match columns df, rows df with
  | [], _ => true
  | _, [] => true
  | _, _ => false
  end.

(** [jobs_df.iterrows()], without the index labels the loop discards. *)
Definition iterrows (df : DataFrame) : list Series := rows df.

(** ** Values handed to [json.dump] *)

Inductive json : Type :=
| JNull
| JBool (b : bool)
| JStr (s : text)
| JFloat (x : spec_float)
| JList (items : list json)
| JDict (items : list (string * json)).

(** Induction on a value with the hypothesis for every item of a list and
    every value of a dictionary. *)
Fixpoint json_all (P : json -> Prop) (Pnull : P JNull)
    (Pbool : forall b, P (JBool b)) (Pstr : forall s, P (JStr s))
    (Pfloat : forall x, P (JFloat x))
    (Plist : forall items, Forall P items -> P (JList items))
    (Pdict : forall items, Forall (fun kv => P (snd kv)) items ->
                           P (JDict items))
    (o : json) : P o :=
  match o with
  | JNull => Pnull
  | JBool b => Pbool b
  | JStr s => Pstr s
  | JFloat x => Pfloat x
  | JList items =>
      Plist items
        ((fix all (l : list json) : Forall P l :=
            match l with
            | [] => @List.Forall_nil _ P
            | x :: l' =>
                @List.Forall_cons _ P x l'
                  (json_all P Pnull Pbool Pstr Pfloat Plist Pdict x) (all l')
            end) items)
  | JDict items =>
      Pdict items
        ((fix all (l : list (string * json))
            : Forall (fun kv => P (snd kv)) l :=
            match l with
            | [] => @List.Forall_nil _ _
            | kv :: l' =>
                @List.Forall_cons _ _ kv l'
                  (json_all P Pnull Pbool Pstr Pfloat Plist Pdict (snd kv))
                  (all l')
            end) items)
  end.

(** A Python [dict] with string keys, in insertion order. *)
Abbreviation dict := (list (string * json)).

(** [d[key]] for a key that may be absent: the first binding of [key]. *)
Fixpoint dict_get (d : dict) (key : string) : option json :=
  match d with
  | [] => None
  | (k, v) :: rest => if String.eqb k key then Some v else dict_get rest key
  end.

(** [key in d] *)
Definition has_key (d : dict) (key : string) : bool :=
  match dict_get d key with
  | Some _ => true
  | None => false
  end.

(** [d[key] = v] for a key that [d] does not hold yet. *)
Definition dict_set_new (d : dict) (key : string) (v : json) : dict :=
  d ++ [(key, v)].

(** No float inside the value is NaN or an infinity. *)
Fixpoint finite_json (o : json) : bool :=
  match o with
  | JFloat S754_nan | JFloat (S754_infinity _) => false
  | JList items => forallb finite_json items
  | JDict items => forallb (fun kv => finite_json (snd kv)) items
  | _ => true
  end.

(** No string inside the value holds a code point that UTF-8 cannot
    encode.  The keys are strings of the script. *)
Fixpoint clean_json (o : json) : bool :=
  match o with
  | JStr s => encodable s
  | JList items => forallb clean_json items
  | JDict items => forallb (fun kv => clean_json (snd kv)) items
  | _ => true
  end.

(** ** JSON texts (RFC 8259) *)

Definition quote : N := 34%N.
Definition newline : N := 10%N.

(** [ws]: space, horizontal tab, line feed, carriage return. *)
Definition is_ws (c : N) : bool :=
  ((c =? 32) || (c =? 9) || (c =? 10) || (c =? 13))%N.

Fixpoint ws (s : text) : bool :=
  match s with
  | [] => true
  | c :: rest => is_ws c && ws rest
  end.

Definition is_digit (c : N) : bool := ((48 <=? c) && (c <=? 57))%N.

Definition is_hex (c : N) : bool :=
  (is_digit c || (65 <=? c) && (c <=? 70) || (97 <=? c) && (c <=? 102))%N.

(** [number = [ minus ] int [ frac ] [ exp ]], as the automaton that reads
    it. *)
Inductive number_state : Type :=
| NStart | NMinus | NZero | NInt | NDot | NFrac | NE | NESign | NExp.

Definition number_step (st : number_state) (c : N) : option number_state :=
  let e := ((c =? 101) || (c =? 69))%N in
  let dot := (c =? 46)%N in
  match st with
  | NStart =>
      if (c =? 45)%N then Some NMinus
      else if (c =? 48)%N then Some NZero
      else if is_digit c then Some NInt else None
  | NMinus =>
      if (c =? 48)%N then Some NZero
      else if is_digit c then Some NInt else None
  | NZero => if dot then Some NDot else if e then Some NE else None
  | NInt =>
      if is_digit c then Some NInt
      else if dot then Some NDot else if e then Some NE else None
  | NDot => if is_digit c then Some NFrac else None
  | NFrac => if is_digit c then Some NFrac else if e then Some NE else None
  | NE =>
      if ((c =? 43) || (c =? 45))%N then Some NESign
      else if is_digit c then Some NExp else None
  | NESign => if is_digit c then Some NExp else None
  | NExp => if is_digit c then Some NExp else None
  end.

Fixpoint number_from (st : number_state) (s : text) : bool :=
  match s with
  | [] =>
      match st with
      | NZero | NInt | NFrac | NExp => true
      | _ => false
      end
  | c :: rest =>
      match number_step st c with
      | Some st' => number_from st' rest
      | None => false
      end
  end.

Definition is_number (s : text) : bool := number_from NStart s.

(** The characters between the quotation marks of a [string]: unescaped
    ones ([%x20-21 / %x23-5B / %x5D-10FFFF]), the two-character escapes,
    and [\uXXXX]. *)
Inductive json_chars : text -> Prop :=
| chars_nil : json_chars []
| chars_unescaped (c : N) (s : text) :
    (32 <= c)%N -> (c <= 0x10FFFF)%N -> c <> 34%N -> c <> 92%N ->
    json_chars s -> json_chars (c :: s)
| chars_escape (c : N) (s : text) :
    In c [34; 92; 47; 98; 102; 110; 114; 116]%N ->
    json_chars s -> json_chars (92%N :: c :: s)
| chars_unicode (h1 h2 h3 h4 : N) (s : text) :
    is_hex h1 = true -> is_hex h2 = true -> is_hex h3 = true ->
    is_hex h4 = true -> json_chars s ->
    json_chars (92%N :: 117%N :: h1 :: h2 :: h3 :: h4 :: s).

(** [string = quotation-mark *char quotation-mark] *)
Inductive json_string : text -> Prop :=
| string_quoted (s : text) :
    json_chars s -> json_string (quote :: s ++ [quote]).

(** One or more items of the kind [item], separated by commas, each with
    optional whitespace around it. *)
Inductive separated (item : text -> Prop) : text -> Prop :=
| separated_one (w1 x w2 : text) :
    ws w1 = true -> item x -> ws w2 = true ->
    separated item (w1 ++ x ++ w2)
| separated_more (w1 x w2 rest : text) :
    ws w1 = true -> item x -> ws w2 = true -> separated item rest ->
    separated item (w1 ++ x ++ w2 ++ lit "," ++ rest).

(** [member = string name-separator value], with the whitespace of the
    separator. *)
Inductive member (value : text -> Prop) : text -> Prop :=
| member_pair (k w1 w2 v : text) :
    json_string k -> ws w1 = true -> ws w2 = true -> value v ->
    member value (k ++ w1 ++ lit ":" ++ w2 ++ v).

Inductive json_value : text -> Prop :=
| value_null : json_value (lit "null")
| value_true : json_value (lit "true")
| value_false : json_value (lit "false")
| value_number (s : text) : is_number s = true -> json_value s
| value_string (s : text) : json_string s -> json_value s
| value_empty_array (w : text) :
    ws w = true -> json_value (lit "[" ++ w ++ lit "]")
| value_array (body : text) :
    separated json_value body -> json_value (lit "[" ++ body ++ lit "]")
| value_empty_object (w : text) :
    ws w = true -> json_value (lit "{" ++ w ++ lit "}")
| value_object (body : text) :
    separated (member json_value) body ->
    json_value (lit "{" ++ body ++ lit "}").

(** [JSON-text = ws value ws] *)
Definition json_text (s : text) : Prop :=
  exists w1 v w2, ws w1 = true /\ json_value v /\ ws w2 = true /\
                  s = w1 ++ v ++ w2.

(** The characters a JSON value can start with. *)
Definition starts_value (c : N) : bool :=
  (is_digit c || (c =? 45) || (c =? 34) || (c =? 91) || (c =? 123)
   || (c =? 110) || (c =? 116) || (c =? 102))%N.

(** [s] without its leading whitespace. *)
Fixpoint skip_ws (s : text) : text :=
  match s with
  | c :: rest => if is_ws c then skip_ws rest else s
  | [] => []
  end.

(** ** Slices and splitting *)

(** [s[:n]] *)
Fixpoint slice_to (n : nat) (s : text) : text :=
  match n, s with
  | O, _ => []
  | S n', c :: rest => c :: slice_to n' rest
  | S _, [] => []
  end.

(** [s.split(',')] *)
Fixpoint split_comma (s : string) : list string :=
  match s with
  | EmptyString => [""]
  | String c rest =>
      if Ascii.eqb c "," then "" :: split_comma rest
      else match split_comma rest with
           | piece :: pieces => String c piece :: pieces
           | [] => [String c ""]
           end
  end.

(** [c.isspace()] for the characters below 256. *)
Definition isspace (c : ascii) : bool :=
  let n := nat_of_ascii c in
  ((9 <=? n) && (n <=? 13) || (28 <=? n) && (n <=? 32)
   || (n =? 133) || (n =? 160))%nat.

Fixpoint lstrip (s : string) : string :=
  match s with
  | String c rest => if isspace c then lstrip rest else s
  | EmptyString => ""
  end.

Fixpoint rstrip (s : string) : string :=
  match s with
  | String c rest =>
      match rstrip rest with
      | EmptyString => if isspace c then "" else String c ""
      | kept => String c kept
      end
  | EmptyString => ""
  end.

(** [s.strip()] *)
Definition strip (s : string) : string := rstrip (lstrip s).

(** ** Command line, collaborator and process state *)

(** The namespace [argparse] returns (lines 18-27). *)
Module args.
Record t : Type := {
  query : string;
  location : string;
  sites : string;
  max_jobs : Z;
  job_type : option string;
  experience_level : option string;
  output : string
}.
End args.

(** The keyword arguments of one call of [scrape_jobs]. *)
Module kwargs.
Record t : Type := {
  site_name : list string;
  search_term : string;
  location : string;
  results_wanted : Z;
  hours_old : Z;
  country_indeed : string
}.
End kwargs.

(** What the process finds around it: whether the two imports succeed,
    how the collaborator answers a call (a DataFrame, [None], or an
    [Exception] with its message), the reading of
    [datetime.now().isoformat()] taken while row [k] is normalized, and
    what a write that raises [UnicodeEncodeError] has left in the file
    when the file is closed: the chunks of the text that [json.dump] had
    handed over before the one that cannot be encoded. *)
Record Env : Type := {
  jobspy_installed : bool;
  pandas_installed : bool;
  scrape_jobs : kwargs.t -> string + option DataFrame;
  clock : nat -> string;
  flushed : text -> text
}.

(** The lines the script prints to [sys.stderr], by their format string
    and the values put into it. *)
Inductive message : Type :=
| JobSpy_not_found
| Required_libraries_not_found
| Starting_job_scrape (query location : string)
| Successfully_scraped (n : nat)
| No_jobs_found
| Error_during_job_scraping (e : exn).

(** The state the script acts on: the files by path, what was printed to
    [sys.stderr], and the calls made to the collaborator, oldest first. *)
Record World : Type := {
  files : gmap string text;
  stderr : list message;
  calls : list kwargs.t
}.

(** Computations that read and change the [World] and may raise. *)
Definition M (A : Type) : Type := World -> result A * World.

#[global] Instance M_ret : MRet M := fun A a w => (Ok a, w).
#[global] Instance M_bind : MBind M := fun A B f m w =>
  match m w with
  | (Ok a, w') => f a w'
  | (Raise e, w') => (Raise e, w')
  end.

(** A computation that only may raise, run inside [M]. *)
Definition lift {A : Type} (r : result A) : M A := fun w => (r, w).

(** [raise e] *)
Definition raise {A : Type} (e : exn) : M A := fun w => (Raise e, w).

(** [try: body / except C as e: handler e], where [catches] is
    [isinstance(_, C)]. *)
Definition try_except {A : Type} (body : M A) (catches : exn -> bool)
    (handler : exn -> M A) : M A := fun w =>
  match body w with
  | (Ok a, w') => (Ok a, w')
  | (Raise e, w') => if catches e then handler e w' else (Raise e, w')
  end.

(** [print(msg, file=sys.stderr)] *)
Definition print (msg : message) : M unit := fun w =>
  (Ok tt, {| files := files w; stderr := stderr w ++ [msg];
             calls := calls w |}).

(** [sys.exit(code)] *)
Definition sys_exit {A : Type} (code : Z) : M A := raise (SystemExit code).

(** The status the process ends with: 0 when the script runs to its end,
    the code of an uncaught [SystemExit], 1 after any other uncaught
    exception. *)
Definition exit_status {A : Type} (r : result A) : Z :=
  match r with
  | Ok _ => 0
  | Raise (SystemExit code) => code
  | Raise _ => 1
  end.

(** ** The builtins [str], [bool] and [float] *)

Section Script.

(** [float.__repr__] of a finite non-zero float, given as sign, mantissa
    and exponent. *)
Variable repr_finite : bool -> positive -> Z -> string.

(** [float(s)] for a string [s]; [None] when CPython raises
    [ValueError]. *)
Variable float_of_str : text -> option spec_float.

(** [float.__repr__(x)], which is also [str(x)]. *)
Definition float_repr (x : spec_float) : text :=
  match x with
  | S754_nan => lit "nan"
  | S754_infinity false => lit "inf"
  | S754_infinity true => lit "-inf"
  | S754_zero false => lit "0.0"
  | S754_zero true => lit "-0.0"
  | S754_finite s m e => lit (repr_finite s m e)
  end.

(** [str(v)] *)
Definition str (v : cell) : text :=
  match v with
  | CNone => lit "None"
  | CNA => lit "<NA>"
  | CStr s => s
  | CBool true => lit "True"
  | CBool false => lit "False"
  | CInt n => lit (pretty n)
  | CFloat x => float_repr x
  | CDate iso => lit iso
  end.

(** [bool(v)]: [pd.NA] refuses to be a truth value; a string is false
    only when its length is zero; a float is false only when it is a zero,
    so NaN is true. *)
Definition bool_ (v : cell) : result bool :=
  match v with
  | CNone => Ok false
  | CNA => Raise TypeError
  | CStr s => Ok (negb (length s =? 0)%nat)
  | CBool b => Ok b
  | CInt n => Ok (negb (n =? 0))
  | CFloat (S754_zero _) => Ok false
  | CFloat _ => Ok true
  | CDate _ => Ok true
  end.

(** [float(n)] for an integer: the nearest binary64, ties to even, or
    [OverflowError] when that is not finite. *)
Definition float_of_int (n : Z) : result spec_float :=
  match binary_normalize 53 1024 n 0 false with
  | S754_infinity _ => Raise OverflowError
  | x => Ok x
  end.

(** [float(v)] *)
Definition float (v : cell) : result spec_float :=
  match v with
  | CNone | CNA | CDate _ => Raise TypeError
  | CStr s =>
      match float_of_str s with
      | Some x => Ok x
      | None => Raise ValueError
      end
  | CBool b => float_of_int (if b then 1 else 0)
  | CInt n => float_of_int n
  | CFloat x => Ok x
  end.

(** ** The record normalizer (lines 49-77 of the script) *)

(** [str(row.get(key, default))] *)
Definition str_field (row : Series) (key default : string) : json :=
  JStr (str (get row key (CStr (lit default)))).

(** [str(row.get(key, '')) if pd.notna(row.get(key)) else None] *)
Definition nullable_field (row : Series) (key : string) : json :=
  if notna (get row key CNone) then JStr (str (get row key (CStr (lit ""))))
  else JNull.

(** [float(row.get(key)) if pd.notna(row.get(key)) else None] *)
Definition amount_field (row : Series) (key : string) : result json :=
  if notna (get row key CNone) then JFloat <$> float (get row key CNone)
  else Ok JNull.

(** [str(row.get(key, default)) if pd.notna(row.get(key)) else default] *)
Definition defaulted_field (row : Series) (key default : string) : json :=
  if notna (get row key CNone)
  then JStr (str (get row key (CStr (lit default))))
  else JStr (lit default).

(** The dictionary display of lines 49-66.  [now] is what
    [datetime.now().isoformat()] returns when the display is evaluated.
    Every value but the one of [is_remote] is computed without raising, so
    the display raises exactly when [bool] does. *)
Definition job_data (row : Series) (now : string) : result dict :=
  is_remote ← bool_ (get row "is_remote" (CBool false));
  Ok [ ("title", str_field row "title" "");
       ("company", str_field row "company" "");
       ("company_url", nullable_field row "company_url");
       ("job_url", str_field row "job_url" "");
       ("location", str_field row "location" "");
       ("city", nullable_field row "city");
       ("state", nullable_field row "state");
       ("country", nullable_field row "country");
       ("is_remote", JBool is_remote);
       ("job_type", nullable_field row "job_type");
       ("date_posted", str_field row "date_posted" now);
       ("description",
         JStr (slice_to 5000 (str (get row "description" (CStr (lit ""))))));
       ("site", str_field row "site" "unknown");
       ("job_level", nullable_field row "job_level");
       ("company_industry", nullable_field row "company_industry");
       ("salary_source", nullable_field row "salary_source") ].

(** The test of line 69. *)
Definition has_amount (row : Series) : bool :=
  notna (get row "min_amount" CNone) || notna (get row "max_amount" CNone).

(** The dictionary display of lines 70-75. *)
Definition compensation (row : Series) : result dict :=
  min_amount ← amount_field row "min_amount";
  max_amount ← amount_field row "max_amount";
  Ok [ ("min_amount", min_amount);
       ("max_amount", max_amount);
       ("interval", defaulted_field row "interval" "yearly");
       ("currency", defaulted_field row "currency" "USD") ].

(** One turn of the loop body, lines 49-75: the dictionary appended to
    [jobs_data] for [row]. *)
Definition normalize (row : Series) (now : string) : result dict :=
  jd ← job_data row now;
  if has_amount row then
    c ← compensation row;
    Ok (dict_set_new jd "compensation" (JDict c))
  else Ok jd.

(** The loop of lines 47-77 from row number [i] on.  [clock k] is the
    reading of [datetime.now().isoformat()] taken for row [k]. *)
Fixpoint jobs_data_from (clock : nat -> string) (i : nat)
    (todo : list Series) : result (list dict) :=
  match todo with
  | [] => Ok []
  | row :: rest =>
      jd ← normalize row (clock i);
      more ← jobs_data_from clock (S i) rest;
      Ok (jd :: more)
  end.

Definition jobs_data (clock : nat -> string) (df : DataFrame)
    : result (list dict) :=
  jobs_data_from clock 0 (iterrows df).


(** ** [json.dump] *)

(** The digit of [n < 16] in lower-case hexadecimal. *)
Definition hex_digit (n : N) : N :=
  (if n <? 10 then 48 + n else 87 + n)%N.

(** ['\\u{0:04x}'.format(n)] for [n < 0x10000] *)
Definition u_escape (n : N) : text :=
  lit "\u"
  ++ [hex_digit (n / 4096 mod 16); hex_digit (n / 256 mod 16);
      hex_digit (n / 16 mod 16); hex_digit (n mod 16)]%N.

(** The replacement of one character inside a JSON string: the quote, the
    backslash and the control characters always, and with [ensure_ascii]
    every character outside [' '..'~'] as well, one beyond [0xFFFF] as the
    two surrogates of its UTF-16 form. *)
Definition escape (ensure_ascii : bool) (c : N) : text :=
  (if c =? 34 then [92; 34]
   else if c =? 92 then lit "\\"
   else if c =? 10 then lit "\n"
   else if c =? 13 then lit "\r"
   else if c =? 9 then lit "\t"
   else if c =? 12 then lit "\f"
   else if c =? 8 then lit "\b"
   else if c <? 32 then u_escape c
   else if ensure_ascii && (126 <? c) then
     if c <? 0x10000 then u_escape c
     else
       let n := c - 0x10000 in
       u_escape (N.lor 0xD800 (N.land (N.shiftr n 10) 0x3FF))
       ++ u_escape (N.lor 0xDC00 (N.land n 0x3FF))
   else [c])%N.

Fixpoint escape_all (ensure_ascii : bool) (s : text) : text :=
  match s with
  | [] => []
  | c :: rest => escape ensure_ascii c ++ escape_all ensure_ascii rest
  end.

(** [encode_basestring(s)] and [encode_basestring_ascii(s)] *)
Definition encode_str (ensure_ascii : bool) (s : text) : text :=
  quote :: escape_all ensure_ascii s ++ [quote].

(** [floatstr(x)] of the encoder, with [allow_nan] left at [True]. *)
Definition floatstr (x : spec_float) : text :=
  match x with
  | S754_nan => lit "NaN"
  | S754_infinity false => lit "Infinity"
  | S754_infinity true => lit "-Infinity"
  | _ => float_repr x
  end.

(** ['\n' + ' ' * (indent * level)] *)
Definition newline_indent (indent level : nat) : text :=
  newline :: repeat 32%N (indent * level).

(** [sep.join(pieces)] *)
Fixpoint join (sep : string) (pieces : list string) : string :=
  match pieces with
  | [] => ""
  | [piece] => piece
  | piece :: rest => piece +:+ sep +:+ join sep rest
  end.

(** The same for texts. *)
Fixpoint text_join (sep : text) (pieces : list text) : text :=
  match pieces with
  | [] => []
  | [piece] => piece
  | piece :: rest => piece ++ sep ++ text_join sep rest
  end.

(** The text between the brackets of a non-empty list or dict. *)
Definition bracketed (indent : option nat) (level : nat)
    (pieces : list text) : text :=
  match indent with
  | Some n =>
      newline_indent n (S level)
      ++ text_join (lit "," ++ newline_indent n (S level)) pieces
      ++ newline_indent n level
  | None => text_join (lit ", ") pieces
  end.

(** [json.dumps(o, indent=indent, ensure_ascii=ensure_ascii)], which is the
    text [json.dump] writes; [level] is the current nesting depth. *)
Fixpoint encode (indent : option nat) (ensure_ascii : bool) (level : nat)
    (o : json) : text :=
  match o with
  | JNull => lit "null"
  | JBool true => lit "true"
  | JBool false => lit "false"
  | JStr s => encode_str ensure_ascii s
  | JFloat x => floatstr x
  | JList [] => lit "[]"
  | JList items =>
      lit "[" ++ bracketed indent level
                   (map (encode indent ensure_ascii (S level)) items)
      ++ lit "]"
  | JDict [] => lit "{}"
  | JDict items =>
      lit "{" ++ bracketed indent level
                   (map (fun kv : string * json =>
                           let (k, v) := kv in
                           encode_str ensure_ascii (lit k) ++ lit ": "
                           ++ encode indent ensure_ascii (S level) v) items)
      ++ lit "}"
  end.

Definition dumps (indent : option nat) (ensure_ascii : bool) (o : json)
    : text :=
  encode indent ensure_ascii 0 o.

(** ** The script *)

Variable env : Env.

(** [import M], for a module that is or is not installed. *)
Definition import (installed : bool) : M unit :=
  if installed then mret tt else raise ImportError.

(** [with open(path, 'w', encoding='utf-8') as f: json.dump(o, f, ...)],
    where [content] is the text that [json.dump] hands to [f.write].
    [open] empties the file; [f.write] raises [UnicodeEncodeError] at the
    first chunk that UTF-8 cannot encode, and the [with] statement closes
    the file with what it holds by then.  [open] itself is taken to
    succeed: a path that cannot be opened for writing, where it raises
    [OSError], is outside the model. *)
Definition write_file (path : string) (content : text) : M unit := fun w =>
  if encodable content then
    (Ok tt, {| files := <[path := content]> (files w); stderr := stderr w;
               calls := calls w |})
  else
    (Raise UnicodeEncodeError,
     {| files := <[path := flushed env content]> (files w);
        stderr := stderr w; calls := calls w |}).

(** The call of lines 36-43: recorded, then answered by the collaborator. *)
Definition call_scrape_jobs (kw : kwargs.t) : M (option DataFrame) :=
  fun w =>
    let w' := {| files := files w; stderr := stderr w;
                 calls := calls w ++ [kw] |} in
    match scrape_jobs env kw with
    | inl msg => (Raise (ScrapeError msg), w')
    | inr jobs_df => (Ok jobs_df, w')
    end.

(** The keyword arguments of lines 36-43, from the parsed command line. *)
Definition scrape_kwargs (a : args.t) : kwargs.t :=
  {| kwargs.site_name := map strip (split_comma (args.sites a));
     kwargs.search_term := args.query a;
     kwargs.location := args.location a;
     kwargs.results_wanted := args.max_jobs a;
     kwargs.hours_old := 168;
     kwargs.country_indeed := "USA" |}.

(** Lines 86-89: the branch taken for [None] or an empty DataFrame. *)
Definition no_jobs (a : args.t) : M unit :=
  print No_jobs_found;;
  write_file (args.output a) (dumps None true (JList [])).

(** [main()], lines 29-96, after [parser.parse_args()] has returned [a]. *)
Definition main (a : args.t) : M unit :=
  try_except
    (print (Starting_job_scrape (args.query a) (args.location a));;
     jobs_df ← call_scrape_jobs (scrape_kwargs a);
     match jobs_df with
     | Some df =>
         if negb (empty df) then
           jd ← lift (jobs_data (clock env) df);
           write_file (args.output a)
             (dumps (Some 2%nat) false (JList (map JDict jd)));;
           print (Successfully_scraped (length jd))
         else no_jobs a
     | None => no_jobs a
     end)
    is_Exception
    (fun e =>
       print (Error_during_job_scraping e);;
       write_file (args.output a) (dumps None true (JList []));;
       sys_exit 1).

(** The module body: lines 11-15, then lines 98-104. *)
Definition script (a : args.t) : M unit :=
  try_except (import (jobspy_installed env)) is_ImportError
    (fun _ => print JobSpy_not_found;; sys_exit 1);;
  try_except (import (pandas_installed env);; main a) is_ImportError
    (fun _ => print Required_libraries_not_found;; sys_exit 1).

(** One invocation from the world [w]: the exit status and the world the
    process leaves behind. *)
Definition run (a : args.t) (w : World) : Z * World :=
  let (r, w') := script a w in (exit_status r, w').


(** ** Names used in the statements *)

(** The keys of lines 49-66 whose value is guarded by [pd.notna]. *)
Definition nullable_keys : list string :=
  ["company_url"; "city"; "state"; "country"; "job_type"; "job_level";
   "company_industry"; "salary_source"].

(** The other string-valued keys of lines 49-66, each with the default its
    [row.get] is given. *)
Definition string_defaults (now : string) : list (string * string) :=
  [("title", ""); ("company", ""); ("job_url", ""); ("location", "");
   ("date_posted", now); ("description", ""); ("site", "unknown")].

(** The world after the first print and the call of the collaborator. *)
Definition called (a : args.t) (w : World) : World :=
  {| files := files w;
     stderr := stderr w
               ++ [Starting_job_scrape (args.query a) (args.location a)];
     calls := calls w ++ [scrape_kwargs a] |}.

(** The world the handler of lines 91-96 leaves. *)
Definition failed (a : args.t) (e : exn) (w : World) : World :=
  {| files := <[args.output a := lit "[]"]> (files w);
     stderr := stderr (called a w) ++ [Error_during_job_scraping e];
     calls := calls (called a w) |}.

(** Two command lines that differ at most in [--experience-level]. *)
Definition same_but_experience_level (a1 a2 : args.t) : Prop :=
  args.query a1 = args.query a2 /\
  args.location a1 = args.location a2 /\
  args.sites a1 = args.sites a2 /\
  args.max_jobs a1 = args.max_jobs a2 /\
  args.job_type a1 = args.job_type a2 /\
  args.output a1 = args.output a2.

(** Two command lines that differ at most in [--job-type]. *)
Definition same_but_job_type (a1 a2 : args.t) : Prop :=
  args.query a1 = args.query a2 /\
  args.location a1 = args.location a2 /\
  args.sites a1 = args.sites a2 /\
  args.max_jobs a1 = args.max_jobs a2 /\
  args.experience_level a1 = args.experience_level a2 /\
  args.output a1 = args.output a2.

(** ** Inputs of the examples *)

(** The examples run the model with these stand-ins for its two
    parameters.  No example prints a finite float, and none converts a
    string that CPython reads as a number. *)
Definition example_repr_finite : bool -> positive -> Z -> string :=
  fun _ _ _ => "1.0".

Definition example_float_of_str : text -> option spec_float :=
  fun _ => None.

Definition example_now : string := "2024-05-01T12:00:00".

(** An installation with both libraries whose collaborator gives the same
    answer to every call. *)
Definition example_env (answer : string + option DataFrame) : Env :=
  {| jobspy_installed := true;
     pandas_installed := true;
     scrape_jobs := fun _ => answer;
     clock := fun _ => example_now;
     flushed := fun _ => [] |}.

Definition example_args : args.t :=
  {| args.query := "engineer";
     args.location := "Vienna";
     args.sites := "indeed, linkedin";
     args.max_jobs := 50;
     args.job_type := None;
     args.experience_level := None;
     args.output := "jobs.json" |}.

Definition senior_args : args.t :=
  {| args.query := "engineer";
     args.location := "Vienna";
     args.sites := "indeed, linkedin";
     args.max_jobs := 50;
     args.job_type := None;
     args.experience_level := Some "senior";
     args.output := "jobs.json" |}.

Definition fulltime_args : args.t :=
  {| args.query := "engineer";
     args.location := "Vienna";
     args.sites := "indeed, linkedin";
     args.max_jobs := 50;
     args.job_type := Some "fulltime";
     args.experience_level := None;
     args.output := "jobs.json" |}.

Definition fresh_world : World :=
  {| files := ∅; stderr := []; calls := [] |}.

(** The row of the specification's scenario. *)
Definition scenario_row : Series :=
  <["title" := CStr (lit "Engineer")]>
    (<["company" := CStr (lit "Acme")]>
       (<["min_amount" := CInt 80000]>
          (<["max_amount" := CInt 120000]> ∅))).

(** 80000.0 and 120000.0 as binary64: mantissa times two to the
    exponent. *)
Definition f80000 : spec_float := S754_finite false 5497558138880000 (-36).
Definition f120000 : spec_float := S754_finite false 8246337208320000 (-36).

Definition scenario_listing : dict :=
  [ ("title", JStr (lit "Engineer")); ("company", JStr (lit "Acme"));
    ("company_url", JNull); ("job_url", JStr (lit "")); ("location", JStr (lit ""));
    ("city", JNull); ("state", JNull); ("country", JNull);
    ("is_remote", JBool false); ("job_type", JNull);
    ("date_posted", JStr (lit example_now)); ("description", JStr (lit ""));
    ("site", JStr (lit "unknown")); ("job_level", JNull);
    ("company_industry", JNull); ("salary_source", JNull);
    ("compensation",
      JDict [ ("min_amount", JFloat f80000); ("max_amount", JFloat f120000);
              ("interval", JStr (lit "yearly")); ("currency", JStr (lit "USD")) ]) ].

(** A row without amounts, and its listing. *)
Definition plain_row : Series :=
  <["title" := CStr (lit "Engineer")]> (<["is_remote" := CBool true]> ∅).

Definition plain_listing : dict :=
  [ ("title", JStr (lit "Engineer")); ("company", JStr (lit ""));
    ("company_url", JNull); ("job_url", JStr (lit "")); ("location", JStr (lit ""));
    ("city", JNull); ("state", JNull); ("country", JNull);
    ("is_remote", JBool true); ("job_type", JNull);
    ("date_posted", JStr (lit example_now)); ("description", JStr (lit ""));
    ("site", JStr (lit "unknown")); ("job_level", JNull);
    ("company_industry", JNull); ("salary_source", JNull) ].

Definition plain_df : DataFrame :=
  {| columns := ["title"; "is_remote"]; rows := [plain_row] |}.

(** A row whose title is NaN. *)
Definition nan_title_row : Series := <["title" := NaN]> ∅.

(** A row whose [is_remote] is NaN. *)
Definition nan_remote_row : Series :=
  <["title" := CStr (lit "Engineer")]> (<["is_remote" := NaN]> ∅).

(** A DataFrame of one row whose [is_remote] is [pd.NA]. *)
Definition na_remote_df : DataFrame :=
  {| columns := ["title"; "is_remote"];
     rows := [<["title" := CStr (lit "Engineer")]> (<["is_remote" := CNA]> ∅)] |}.

(** A description of 5003 characters, and the listing of a row holding
    it. *)
Definition long_description : text := repeat 120%N 5003.

Definition long_row : Series :=
  <["description" := CStr long_description]> ∅.

Definition long_listing : dict :=
  [ ("title", JStr (lit "")); ("company", JStr (lit ""));
    ("company_url", JNull); ("job_url", JStr (lit "")); ("location", JStr (lit ""));
    ("city", JNull); ("state", JNull); ("country", JNull);
    ("is_remote", JBool false); ("job_type", JNull);
    ("date_posted", JStr (lit example_now));
    ("description", JStr (repeat 120%N 5000));
    ("site", JStr (lit "unknown")); ("job_level", JNull);
    ("company_industry", JNull); ("salary_source", JNull) ].

(** ** Names used in the further statements *)

(** The number of commas in [s]. *)
Fixpoint count_commas (s : string) : nat :=
  match s with
  | EmptyString => 0
  | String c rest =>
      if Ascii.eqb c "," then S (count_commas rest) else count_commas rest
  end.

(** Every character of [s] is whitespace for [str.strip]. *)
Fixpoint all_space (s : string) : bool :=
  match s with
  | EmptyString => true
  | String c rest => isspace c && all_space rest
  end.

(** [s] neither starts nor ends with a whitespace character. *)
Definition trimmed (s : string) : Prop :=
  (forall c rest, s = String c rest -> isspace c = false) /\
  (forall front c, s = front +:+ String c "" -> isspace c = false).

(** The column labels that lines 49-75 read. *)
Definition known_columns : list string :=
  ["title"; "company"; "company_url"; "job_url"; "location"; "city";
   "state"; "country"; "is_remote"; "job_type"; "date_posted";
   "description"; "site"; "job_level"; "company_industry"; "salary_source";
   "min_amount"; "max_amount"; "interval"; "currency"].

(** ** The script from its argument vector *)

(** [main()] with line 27: [parse_args argv] is what [parser.parse_args()]
    does with the command line, [inl code] when argparse prints its usage
    or help text and raises [SystemExit(code)], [inr a] when it returns the
    namespace [a].  The call stands before the [try] of line 29.  What
    argparse itself prints is not recorded: [stderr] holds the lines of
    the script. *)
Definition main_argv (parse_args : list string -> Z + args.t)
    (argv : list string) : M unit :=
  match parse_args argv with
  | inl code => sys_exit code
  | inr a => main a
  end.

(** The module body, lines 11-15 and 98-104, around [main_argv]. *)
Definition script_argv (parse_args : list string -> Z + args.t)
    (argv : list string) : M unit :=
  try_except (import (jobspy_installed env)) is_ImportError
    (fun _ => print JobSpy_not_found;; sys_exit 1);;
  try_except (import (pandas_installed env);; main_argv parse_args argv)
    is_ImportError
    (fun _ => print Required_libraries_not_found;; sys_exit 1).

Definition run_argv (parse_args : list string -> Z + args.t)
    (argv : list string) (w : World) : Z * World :=
  let (r, w') := script_argv parse_args argv w in (exit_status r, w').

(** A character that a JSON string holds as it is: no control character,
    not the quotation mark, not the backslash. *)
Definition literal_char (c : N) : bool :=
  ((32 <=? c) && negb (c =? 34) && negb (c =? 92))%N.

(** ** Inputs of the further examples *)

(** An installation without JobSpy and without pandas. *)
Definition bare_env : Env :=
  {| jobspy_installed := false;
     pandas_installed := false;
     scrape_jobs := fun _ => inr None;
     clock := fun _ => example_now;
     flushed := fun _ => [] |}.

(** A stand-in for argparse: it rejects the empty command line with
    status 2 and returns [example_args] for every other one. *)
Definition example_parse_args (argv : list string) : Z + args.t :=
  match argv with
  | [] => inl 2
  | _ => inr example_args
  end.

(** The row of the scenario with a column the loop does not read. *)
Definition scenario_row_with_extra : Series :=
  <["job_function" := CStr (lit "engineering")]> scenario_row.

(** A DataFrame whose only row has a [date_posted]. *)
Definition dated_df : DataFrame :=
  {| columns := ["title"; "date_posted"];
     rows := [<["title" := CStr (lit "Engineer")]>
                (<["date_posted" := CDate "2024-04-30"]> ∅)] |}.

(** The word [cafe] with an acute accent on its last letter, code point
    233. *)
Definition cafe : text := lit "caf" ++ [233%N].

(** A DataFrame of one row whose title holds a lone surrogate, the code
    point [0xD800], and the listing of that row. *)
Definition surrogate_title : text := lit "Engineer" ++ [0xD800%N].

Definition surrogate_df : DataFrame :=
  {| columns := ["title"];
     rows := [<["title" := CStr surrogate_title]> ∅] |}.

Definition surrogate_listing : dict :=
  [ ("title", JStr surrogate_title); ("company", JStr (lit ""));
    ("company_url", JNull); ("job_url", JStr (lit ""));
    ("location", JStr (lit ""));
    ("city", JNull); ("state", JNull); ("country", JNull);
    ("is_remote", JBool false); ("job_type", JNull);
    ("date_posted", JStr (lit example_now)); ("description", JStr (lit ""));
    ("site", JStr (lit "unknown")); ("job_level", JNull);
    ("company_industry", JNull); ("salary_source", JNull) ].

(** A world with a file beside the output path. *)
Definition used_world : World :=
  {| files := {["notes.txt" := lit "keep"]};
     stderr := [No_jobs_found];
     calls := [] |}.

(** ** Properties of the helpers *)

Lemma slice_to_length (n : nat) (s : text) :
  length (slice_to n s) = Nat.min n (length s).
Proof.
  revert s; induction n as [|n IH]; intros [|c s]; simpl; auto.
Qed.

Lemma slice_to_prefix (n : nat) (s : text) :
  exists rest, s = slice_to n s ++ rest.
Proof.
  revert s; induction n as [|n IH]; intros s.
  - exists s. reflexivity.
  - destruct s as [|c s]; simpl.
    + exists []. reflexivity.
    + destruct (IH s) as [rest E]. exists rest. congruence.
Qed.

Lemma slice_to_short (n : nat) (s : text) :
  (length s <= n)%nat -> slice_to n s = s.
Proof.
  revert s; induction n as [|n IH]; intros [|c s]; simpl; intros H;
    try reflexivity; try lia.
  f_equal. apply IH. lia.
Qed.

(** The keys of lines 49-66, in the order of the display. *)
Lemma job_data_keys (row : Series) (now : string) (jd : dict) :
  job_data row now = Ok jd ->
  map fst jd =
    ["title"; "company"; "company_url"; "job_url"; "location"; "city";
     "state"; "country"; "is_remote"; "job_type"; "date_posted";
     "description"; "site"; "job_level"; "company_industry";
     "salary_source"].
Proof.
  unfold job_data.
  destruct (bool_ (get row "is_remote" (CBool false))) as [b|e];
    [|discriminate].
  intros [= <-]. reflexivity.
Qed.

(** What [normalize] returns when it returns: the bindings of [job_data],
    followed by the compensation when line 69 lets it in. *)
Lemma normalize_Ok (row : Series) (now : string) (d : dict) :
  normalize row now = Ok d ->
  exists jd, job_data row now = Ok jd /\
    ((has_amount row = false /\ d = jd) \/
     (has_amount row = true /\
      exists c, compensation row = Ok c /\
                d = (jd ++ [("compensation", JDict c)])%list)).
Proof.
  unfold normalize. intros H.
  destruct (job_data row now) as [jd|e]; simpl in H; [|discriminate].
  exists jd. split; [reflexivity|].
  destruct (has_amount row).
  - right. split; [reflexivity|].
    destruct (compensation row) as [c|e]; simpl in H; [|discriminate].
    exists c. split; [reflexivity|]. unfold dict_set_new in H. congruence.
  - left. split; [reflexivity|]. congruence.
Qed.

(** Every listing has the sixteen keys of lines 49-66, in that order,
    followed by [compensation] when line 69 lets it in. *)
Lemma normalize_keys (row : Series) (now : string) (d : dict) :
  normalize row now = Ok d ->
  map fst d =
    (["title"; "company"; "company_url"; "job_url"; "location"; "city";
      "state"; "country"; "is_remote"; "job_type"; "date_posted";
      "description"; "site"; "job_level"; "company_industry";
      "salary_source"]
     ++ (if has_amount row then ["compensation"] else []))%list.
Proof.
  intros H. destruct (normalize_Ok _ _ _ H) as (jd & Hjd & Hd).
  pose proof (job_data_keys _ _ _ Hjd) as Hkeys.
  destruct Hd as [[-> ->]|(-> & c & _ & ->)].
  - rewrite Hkeys. reflexivity.
  - rewrite map_app, Hkeys. reflexivity.
Qed.

Lemma dict_get_app (d1 d2 : dict) (key : string) :
  dict_get (d1 ++ d2) key =
  match dict_get d1 key with
  | Some v => Some v
  | None => dict_get d2 key
  end.
Proof.
  induction d1 as [|[k v] d1 IH]; simpl; [reflexivity|].
  destruct (String.eqb k key); auto.
Qed.

(** Reading the dictionary of lines 49-66 back, key by key. *)
Lemma job_data_get (row : Series) (now : string) (jd : dict) :
  job_data row now = Ok jd ->
  dict_get jd "title" = Some (str_field row "title" "") /\
  dict_get jd "company" = Some (str_field row "company" "") /\
  dict_get jd "company_url" = Some (nullable_field row "company_url") /\
  dict_get jd "job_url" = Some (str_field row "job_url" "") /\
  dict_get jd "location" = Some (str_field row "location" "") /\
  dict_get jd "city" = Some (nullable_field row "city") /\
  dict_get jd "state" = Some (nullable_field row "state") /\
  dict_get jd "country" = Some (nullable_field row "country") /\
  (exists is_remote,
     bool_ (get row "is_remote" (CBool false)) = Ok is_remote /\
     dict_get jd "is_remote" = Some (JBool is_remote)) /\
  dict_get jd "job_type" = Some (nullable_field row "job_type") /\
  dict_get jd "date_posted" = Some (str_field row "date_posted" now) /\
  dict_get jd "description" =
    Some (JStr (slice_to 5000 (str (get row "description" (CStr (lit "")))))) /\
  dict_get jd "site" = Some (str_field row "site" "unknown") /\
  dict_get jd "job_level" = Some (nullable_field row "job_level") /\
  dict_get jd "company_industry" =
    Some (nullable_field row "company_industry") /\
  dict_get jd "salary_source" = Some (nullable_field row "salary_source") /\
  dict_get jd "compensation" = None.
Proof.
  unfold job_data. intros H.
  destruct (bool_ (get row "is_remote" (CBool false))) as [b|e] eqn:Hb;
    simpl in H; [|discriminate].
  injection H as <-.
  repeat match goal with
         | |- _ /\ _ => split
         | |- exists _, _ => exists b
         end; reflexivity.
Qed.

(** Outside the key [compensation] the appended dictionary is the one of
    lines 49-66. *)
Lemma normalize_get (row : Series) (now : string) (d : dict) :
  normalize row now = Ok d ->
  exists jd, job_data row now = Ok jd /\
    forall key, key <> "compensation" -> dict_get d key = dict_get jd key.
Proof.
  intros H. destruct (normalize_Ok _ _ _ H) as (jd & Hjd & Hd).
  exists jd. split; [exact Hjd|]. intros key Hkey.
  destruct Hd as [[_ ->]|(_ & c & _ & ->)]; [reflexivity|].
  rewrite dict_get_app. destruct (dict_get jd key); [reflexivity|].
  change (dict_get [("compensation", JDict c)] key)
    with (if String.eqb "compensation" key then Some (JDict c) else None).
  destruct (String.eqb_spec "compensation" key); congruence.
Qed.

(** With amounts in the row, the key [compensation] holds the dictionary
    of lines 70-75; without, the key is absent. *)
Lemma normalize_get_compensation (row : Series) (now : string) (d : dict) :
  normalize row now = Ok d ->
  (has_amount row = false /\ dict_get d "compensation" = None) \/
  (has_amount row = true /\
   exists c, compensation row = Ok c /\
             dict_get d "compensation" = Some (JDict c)).
Proof.
  intros H. destruct (normalize_Ok _ _ _ H) as (jd & Hjd & Hd).
  pose proof (job_data_get _ _ _ Hjd) as Hget.
  destruct Hget as (_&_&_&_&_&_&_&_&_&_&_&_&_&_&_&_&Hget).
  destruct Hd as [[Ha ->]|(Ha & c & Hc & ->)].
  - left. auto.
  - right. split; [exact Ha|]. exists c. split; [exact Hc|].
    rewrite dict_get_app, Hget. reflexivity.
Qed.

(** A guarded default: the [str] of a value that is there, else the
    default. *)
Lemma defaulted_field_eq (row : Series) (key default : string) :
  defaulted_field row key default =
  JStr (if notna (get row key CNone) then str (get row key CNone)
        else lit default).
Proof.
  unfold defaulted_field, get.
  destruct (row !! key) as [v|]; simpl; [|reflexivity].
  destruct (notna v); reflexivity.
Qed.

(** ** [json.dump] writes JSON *)

Lemma append_cons (c : ascii) (s t : string) :
  String c s +:+ t = String c (s +:+ t).
Proof. reflexivity. Qed.

Lemma append_nil_l (s : string) : "" +:+ s = s.
Proof. reflexivity. Qed.

Lemma append_nil_r (s : string) : s +:+ "" = s.
Proof. induction s as [|c s IH]; [reflexivity|]. rewrite append_cons, IH. reflexivity. Qed.

Lemma append_assoc (s t u : string) : (s +:+ t) +:+ u = s +:+ (t +:+ u).
Proof.
  induction s as [|c s IH]; [reflexivity|]. rewrite !append_cons, IH. reflexivity.
Qed.

(** Replaces the closed literals of the goal and of the hypotheses by
    their code points. *)
Ltac lit_norm :=
  repeat match goal with
         | |- context [lit (String ?a ?r)] =>
             let v := eval vm_compute in (lit (String a r)) in
             change (lit (String a r)) with v
         | H : context [lit (String ?a ?r)] |- _ =>
             let v := eval vm_compute in (lit (String a r)) in
             change (lit (String a r)) with v in H
         end.

Lemma lit_cons (a : ascii) (s : string) :
  lit (String a s) = N_of_ascii a :: lit s.
Proof. reflexivity. Qed.

Lemma ws_app (s t : text) : ws s = true -> ws t = true -> ws (s ++ t) = true.
Proof.
  induction s as [|c s IH]; [auto|]. simpl.
  intros [Hc Hs]%andb_true_iff Ht. rewrite Hc. simpl. auto.
Qed.

Lemma ws_spaces (n : nat) : ws (repeat 32%N n) = true.
Proof. induction n as [|n IH]; [reflexivity|]. simpl. exact IH. Qed.

Lemma ws_newline_indent (indent level : nat) :
  ws (newline_indent indent level) = true.
Proof. unfold newline_indent. simpl. apply ws_spaces. Qed.

Lemma json_chars_app (s t : text) :
  json_chars s -> json_chars t -> json_chars (s ++ t).
Proof.
  intros Hs Ht. induction Hs; simpl; [assumption|constructor; assumption..].
Qed.

Lemma hex_digit_is_hex (n : N) : (n < 16)%N -> is_hex (hex_digit n) = true.
Proof.
  intros Hn. unfold hex_digit, is_hex, is_digit.
  destruct (N.ltb_spec n 10);
    repeat match goal with
           | |- context [(?a <=? ?b)%N] => destruct (N.leb_spec a b)
           end; simpl; try reflexivity; lia.
Qed.

Lemma u_escape_chars (n : N) : json_chars (u_escape n).
Proof.
  unfold u_escape.
  change (json_chars
            (92 :: 117 :: hex_digit (n / 4096 mod 16)
                :: hex_digit (n / 256 mod 16) :: hex_digit (n / 16 mod 16)
                :: hex_digit (n mod 16) :: [])%N).
  apply chars_unicode; try (apply hex_digit_is_hex, N.mod_lt; discriminate).
  constructor.
Qed.

Lemma scalar_value_bound (c : N) :
  scalar_value c = true -> (c <= 0x10FFFF)%N.
Proof.
  unfold scalar_value.
  destruct (N.ltb_spec c 0xD800); [lia|].
  destruct (N.ltb_spec 0xDFFF c); [|discriminate].
  destruct (N.leb_spec c 0x10FFFF); [lia|discriminate].
Qed.

Lemma escape_chars (ensure_ascii : bool) (c : N) :
  ensure_ascii || scalar_value c = true ->
  json_chars (escape ensure_ascii c).
Proof.
  intros Hc. unfold escape.
  destruct (N.eqb_spec c 34) as [E34|N34].
  { apply (chars_escape 34%N); [simpl; auto|constructor]. }
  destruct (N.eqb_spec c 92) as [E92|N92].
  { apply (chars_escape 92%N); [simpl; auto|constructor]. }
  destruct (N.eqb_spec c 10).
  { apply (chars_escape 110%N); [simpl; auto 10|constructor]. }
  destruct (N.eqb_spec c 13).
  { apply (chars_escape 114%N); [simpl; auto 10|constructor]. }
  destruct (N.eqb_spec c 9).
  { apply (chars_escape 116%N); [simpl; auto 10|constructor]. }
  destruct (N.eqb_spec c 12).
  { apply (chars_escape 102%N); [simpl; auto 10|constructor]. }
  destruct (N.eqb_spec c 8).
  { apply (chars_escape 98%N); [simpl; auto 10|constructor]. }
  destruct (N.ltb_spec c 32) as [L|G].
  { apply u_escape_chars. }
  destruct (N.ltb_spec 126 c) as [Hhigh|Hlow].
  - destruct ensure_ascii; cbn [andb].
    + destruct (c <? 0x10000)%N;
        [apply u_escape_chars
        |apply json_chars_app; apply u_escape_chars].
    + apply chars_unescaped; try assumption; [|constructor].
      apply scalar_value_bound. exact Hc.
  - rewrite andb_false_r.
    apply chars_unescaped; try assumption; [lia|constructor].
Qed.

Lemma escape_all_chars (ensure_ascii : bool) (s : text) :
  ensure_ascii || encodable s = true ->
  json_chars (escape_all ensure_ascii s).
Proof.
  induction s as [|c s IH]; simpl; [constructor|]. intros H.
  apply json_chars_app; [apply escape_chars|apply IH];
    destruct ensure_ascii; try reflexivity;
    simpl in H; apply andb_true_iff in H as [H1 H2]; assumption.
Qed.

Lemma encode_str_string (ensure_ascii : bool) (s : text) :
  ensure_ascii || encodable s = true ->
  json_string (encode_str ensure_ascii s).
Proof. intros H. unfold encode_str. constructor. apply escape_all_chars, H. Qed.

Lemma scalar_value_small (c : N) : (c < 0xD800)%N -> scalar_value c = true.
Proof.
  intros H. unfold scalar_value.
  destruct (N.ltb_spec c 0xD800); [reflexivity|lia].
Qed.

(** The strings of the script hold characters below 256. *)
Lemma encodable_lit (s : string) : encodable (lit s) = true.
Proof.
  induction s as [|a s IH]; [reflexivity|].
  rewrite lit_cons. simpl. rewrite IH, andb_true_r.
  apply scalar_value_small. pose proof (N_ascii_bounded a). lia.
Qed.

Lemma floatstr_number (x : spec_float) :
  (forall s m e, is_number (lit (repr_finite s m e)) = true) ->
  finite_json (JFloat x) = true -> is_number (floatstr x) = true.
Proof.
  intros Hrepr.
  destruct x as [[]| | |s m e]; simpl; try discriminate; intros _;
    try reflexivity.
  apply Hrepr.
Qed.

(** A comma-separated row of items, as [text_join] lays it out. *)
Lemma separated_join (item : text -> Prop) (w1 wsep w2 : text)
    (pieces : list text) :
  ws w1 = true -> ws wsep = true -> ws w2 = true ->
  pieces <> [] -> Forall item pieces ->
  separated item (w1 ++ text_join (lit "," ++ wsep) pieces ++ w2).
Proof.
  intros H1 Hsep H2 Hne Hall. revert w1 H1.
  induction Hall as [|p rest Hp Hrest IH]; [congruence|]. intros w1 H1.
  destruct rest as [|q rest].
  - simpl. apply separated_one; assumption.
  - change (text_join (lit "," ++ wsep) (p :: q :: rest))
      with (p ++ (lit "," ++ wsep) ++ text_join (lit "," ++ wsep) (q :: rest)).
    replace (w1 ++ (p ++ (lit "," ++ wsep)
                      ++ text_join (lit "," ++ wsep) (q :: rest)) ++ w2)
      with (w1 ++ p ++ [] ++ lit ","
               ++ (wsep ++ text_join (lit "," ++ wsep) (q :: rest) ++ w2))
      by (rewrite <- !app_assoc; reflexivity).
    apply separated_more; [assumption|assumption|reflexivity|].
    apply IH; [discriminate|assumption].
Qed.

Lemma bracketed_separated (item : text -> Prop) (indent : option nat)
    (level : nat) (pieces : list text) :
  pieces <> [] -> Forall item pieces ->
  separated item (bracketed indent level pieces).
Proof.
  intros Hne Hall. unfold bracketed. destruct indent as [n|].
  - apply separated_join; auto using ws_newline_indent.
  - replace (text_join (lit ", ") pieces)
      with ([] ++ text_join (lit "," ++ lit " ") pieces ++ [])
      by (rewrite app_nil_r; reflexivity).
    apply separated_join; auto.
Qed.

(** Every value without NaN and infinities, and without code points that
    are no characters in its strings, is encoded as a JSON value. *)
Lemma encode_value (indent : option nat) (ensure_ascii : bool) (o : json) :
  (forall s m e, is_number (lit (repr_finite s m e)) = true) ->
  forall level, finite_json o = true ->
  ensure_ascii || clean_json o = true ->
  json_value (encode indent ensure_ascii level o).
Proof.
  intros Hrepr.
  induction o as [|b|s|x|items IH|items IH] using json_all;
    intros level Hfin Hclean.
  - constructor.
  - destruct b; constructor.
  - apply value_string, encode_str_string, Hclean.
  - apply value_number, floatstr_number; [exact Hrepr|exact Hfin].
  - destruct items as [|item items].
    { apply (value_empty_array []). reflexivity. }
    remember (item :: items) as l eqn:El.
    assert (encode indent ensure_ascii level (JList l) =
            lit "[" ++ bracketed indent level
                         (map (encode indent ensure_ascii (S level)) l)
            ++ lit "]") as -> by (subst l; reflexivity).
    apply value_array, bracketed_separated.
    + subst l. discriminate.
    + simpl in Hfin. rewrite List.forallb_forall in Hfin.
      rewrite List.Forall_forall in IH. apply List.Forall_forall.
      intros piece [x [<- Hx]]%List.in_map_iff. apply IH; auto.
      destruct ensure_ascii; [reflexivity|]. simpl in Hclean.
      rewrite List.forallb_forall in Hclean. apply Hclean, Hx.
  - destruct items as [|item items].
    { apply (value_empty_object []). reflexivity. }
    remember (item :: items) as l eqn:El.
    assert (encode indent ensure_ascii level (JDict l) =
            lit "{" ++ bracketed indent level
                         (map (fun kv : string * json =>
                                 let (k, v) := kv in
                                 encode_str ensure_ascii (lit k) ++ lit ": "
                                 ++ encode indent ensure_ascii
                                      (S level) v) l)
            ++ lit "}") as -> by (subst l; reflexivity).
    apply value_object, bracketed_separated.
    + subst l. discriminate.
    + simpl in Hfin. rewrite List.forallb_forall in Hfin.
      rewrite List.Forall_forall in IH. apply List.Forall_forall.
      intros piece [[k v] [<- Hx]]%List.in_map_iff.
      replace (encode_str ensure_ascii (lit k) ++ lit ": "
               ++ encode indent ensure_ascii (S level) v)
        with (encode_str ensure_ascii (lit k) ++ [] ++ lit ":" ++ lit " "
              ++ encode indent ensure_ascii (S level) v)
        by reflexivity.
      apply member_pair; [|reflexivity..|].
      * apply encode_str_string. rewrite encodable_lit. apply orb_true_r.
      * apply (IH (k, v)); [assumption|apply (Hfin (k, v)); assumption|].
        destruct ensure_ascii; [reflexivity|]. simpl in Hclean.
        rewrite List.forallb_forall in Hclean. apply (Hclean (k, v)), Hx.
Qed.

(** The text [json.dump] writes for such a value is a JSON text, provided
    [float.__repr__] prints numbers. *)
Lemma dumps_text (indent : option nat) (ensure_ascii : bool) (o : json) :
  (forall s m e, is_number (lit (repr_finite s m e)) = true) ->
  finite_json o = true -> ensure_ascii || clean_json o = true ->
  json_text (dumps indent ensure_ascii o).
Proof.
  intros Hrepr Hfin Hclean. exists [], (dumps indent ensure_ascii o), [].
  repeat split; [apply encode_value; assumption|].
  rewrite app_nil_r. reflexivity.
Qed.

(** ** What [json.dump] writes can be encoded *)

Lemma encodable_app (s t : text) :
  encodable (s ++ t) = encodable s && encodable t.
Proof. apply forallb_app. Qed.

Lemma hex_digit_scalar (n : N) :
  (n < 16)%N -> scalar_value (hex_digit n) = true.
Proof.
  intros Hn. apply scalar_value_small. unfold hex_digit.
  destruct (n <? 10)%N; lia.
Qed.

Lemma u_escape_encodable (n : N) : encodable (u_escape n) = true.
Proof.
  unfold u_escape. rewrite encodable_app, encodable_lit. simpl.
  rewrite !hex_digit_scalar by (apply N.mod_lt; discriminate). reflexivity.
Qed.

Lemma escape_encodable (ensure_ascii : bool) (c : N) :
  encodable (escape ensure_ascii c) = ensure_ascii || scalar_value c.
Proof.
  unfold escape.
  repeat match goal with
         | |- context [(c =? ?k)%N] =>
             destruct (N.eqb_spec c k) as [->|];
             [destruct ensure_ascii; reflexivity|]
         end.
  destruct (N.ltb_spec c 32) as [L|G].
  { rewrite u_escape_encodable, scalar_value_small by lia.
    destruct ensure_ascii; reflexivity. }
  destruct ensure_ascii; cbn [andb orb].
  - destruct (N.ltb_spec 126 c) as [Hhigh|Hlow].
    + destruct (c <? 0x10000)%N;
        rewrite ?encodable_app, !u_escape_encodable; reflexivity.
    + simpl. rewrite scalar_value_small by lia. reflexivity.
  - simpl. apply andb_true_r.
Qed.

Lemma escape_all_encodable (ensure_ascii : bool) (s : text) :
  encodable (escape_all ensure_ascii s) = ensure_ascii || encodable s.
Proof.
  induction s as [|c s IH]; simpl; [destruct ensure_ascii; reflexivity|].
  rewrite encodable_app, escape_encodable, IH.
  destruct ensure_ascii; reflexivity.
Qed.

Lemma encode_str_encodable (ensure_ascii : bool) (s : text) :
  encodable (encode_str ensure_ascii s) = ensure_ascii || encodable s.
Proof.
  unfold encode_str. change (quote :: ?x) with ([quote] ++ x).
  rewrite !encodable_app, escape_all_encodable. simpl.
  apply andb_true_r.
Qed.

Lemma floatstr_encodable (x : spec_float) : encodable (floatstr x) = true.
Proof.
  destruct x as [[]|[]| |s m e]; try reflexivity. apply encodable_lit.
Qed.

Lemma newline_indent_encodable (indent level : nat) :
  encodable (newline_indent indent level) = true.
Proof.
  unfold newline_indent. simpl.
  induction (indent * level)%nat as [|n IH]; [reflexivity|exact IH].
Qed.

Lemma text_join_encodable (sep : text) (pieces : list text) :
  encodable sep = true ->
  encodable (text_join sep pieces) = forallb encodable pieces.
Proof.
  intros Hsep. induction pieces as [|p [|q rest] IH]; [reflexivity| |].
  - simpl. rewrite andb_true_r. reflexivity.
  - change (text_join sep (p :: q :: rest))
      with (p ++ sep ++ text_join sep (q :: rest)).
    rewrite !encodable_app, Hsep, IH. reflexivity.
Qed.

Lemma bracketed_encodable (indent : option nat) (level : nat)
    (pieces : list text) :
  encodable (bracketed indent level pieces) = forallb encodable pieces.
Proof.
  unfold bracketed. destruct indent as [n|].
  - rewrite !encodable_app, !newline_indent_encodable, text_join_encodable.
    + apply andb_true_r.
    + rewrite encodable_app, newline_indent_encodable. reflexivity.
  - apply text_join_encodable. reflexivity.
Qed.

Lemma forallb_of_map {A B : Type} (f : B -> bool) (g : A -> B)
    (l : list A) :
  forallb f (map g l) = forallb (fun x => f (g x)) l.
Proof. induction l as [|x l IH]; simpl; congruence. Qed.

Lemma forallb_orb {A : Type} (b : bool) (f g : A -> bool) (l : list A) :
  Forall (fun x => f x = b || g x) l ->
  forallb f l = b || forallb g l.
Proof.
  induction 1 as [|x l Hx Hl IH]; simpl; [destruct b; reflexivity|].
  rewrite Hx, IH. destruct b; reflexivity.
Qed.

(** With [ensure_ascii] the text is always one that UTF-8 encodes;
    without, it is one exactly when every string of the value is. *)
Lemma encode_encodable (indent : option nat) (ensure_ascii : bool)
    (level : nat) (o : json) :
  encodable (encode indent ensure_ascii level o)
  = ensure_ascii || clean_json o.
Proof.
  revert level.
  induction o as [|b|s|x|items IH|items IH] using json_all; intros level.
  - destruct ensure_ascii; reflexivity.
  - destruct b, ensure_ascii; reflexivity.
  - apply encode_str_encodable.
  - simpl. rewrite floatstr_encodable. destruct ensure_ascii; reflexivity.
  - destruct items as [|item items]; [destruct ensure_ascii; reflexivity|].
    remember (item :: items) as l eqn:El.
    assert (encode indent ensure_ascii level (JList l) =
            lit "[" ++ bracketed indent level
                         (map (encode indent ensure_ascii (S level)) l)
            ++ lit "]") as -> by (subst l; reflexivity).
    rewrite !encodable_app, bracketed_encodable, !encodable_lit.
    rewrite andb_true_r. cbn [andb clean_json].
    rewrite forallb_of_map. apply forallb_orb.
    eapply List.Forall_impl; [|exact IH]. intros x Hx. apply Hx.
  - destruct items as [|item items]; [destruct ensure_ascii; reflexivity|].
    remember (item :: items) as l eqn:El.
    assert (encode indent ensure_ascii level (JDict l) =
            lit "{" ++ bracketed indent level
                         (map (fun kv : string * json =>
                                 let (k, v) := kv in
                                 encode_str ensure_ascii (lit k) ++ lit ": "
                                 ++ encode indent ensure_ascii
                                      (S level) v) l)
            ++ lit "}") as -> by (subst l; reflexivity).
    rewrite !encodable_app, bracketed_encodable, !encodable_lit.
    rewrite andb_true_r. cbn [andb clean_json].
    rewrite forallb_of_map. apply forallb_orb.
    eapply List.Forall_impl; [|exact IH]. intros [k v] Hx. cbn [snd] in *.
    rewrite !encodable_app, encode_str_encodable, !encodable_lit, Hx.
    rewrite orb_true_r. reflexivity.
Qed.

Lemma dumps_encodable (indent : option nat) (o : json) :
  encodable (dumps indent false o) = clean_json o.
Proof. apply (encode_encodable indent false 0 o). Qed.

(** The tokens [json.dump] writes for NaN and the infinities are no JSON
    values. *)
Lemma NaN_and_Infinity_are_no_values :
  ~ json_value (lit "NaN") /\ ~ json_value (lit "Infinity") /\
  ~ json_value (lit "-Infinity").
Proof.
  repeat split; intros H; lit_norm;
    inversion H as [| | |s Hs|s Hs| | | |];
    try discriminate; inversion Hs.
Qed.

Lemma json_value_starts (v : text) :
  json_value v -> exists c rest, v = c :: rest /\ starts_value c = true.
Proof.
  intros H. destruct H as [| | |s Hs|s Hs|w Hw|body Hb|w Hw|body Hb];
    try (eexists _, _; split; [reflexivity|reflexivity]).
  - destruct s as [|c s]; [discriminate|]. exists c, s. split; [reflexivity|].
    unfold is_number in Hs. simpl in Hs. unfold starts_value.
    destruct (N.eqb_spec c 45) as [E|];
      [destruct (is_digit c); reflexivity|].
    destruct (N.eqb_spec c 48) as [E|].
    { unfold is_digit. rewrite E. reflexivity. }
    destruct (is_digit c); [reflexivity|discriminate].
  - destruct Hs. eexists _, _. split; reflexivity.
Qed.

Lemma starts_value_not_ws (c : N) : starts_value c = true -> is_ws c = false.
Proof.
  unfold starts_value, is_ws, is_digit.
  destruct (N.eqb_spec c 32) as [->|]; [discriminate|].
  destruct (N.eqb_spec c 9) as [->|]; [discriminate|].
  destruct (N.eqb_spec c 10) as [->|]; [discriminate|].
  destruct (N.eqb_spec c 13) as [->|]; [discriminate|].
  reflexivity.
Qed.

Lemma skip_ws_app (w : text) (c : N) (rest : text) :
  ws w = true -> is_ws c = false ->
  skip_ws (w ++ c :: rest) = c :: rest.
Proof.
  intros Hw Hc. induction w as [|c' w IH].
  - simpl. rewrite Hc. reflexivity.
  - simpl in Hw. apply andb_true_iff in Hw as [Hc' Hw].
    simpl. rewrite Hc'. auto.
Qed.

(** A value after whitespace starts where the whitespace of the text
    ends. *)
Lemma skip_ws_value (w v tail : text) :
  ws w = true -> json_value v ->
  exists c rest, skip_ws (w ++ v ++ tail) = c :: rest /\
                 starts_value c = true.
Proof.
  intros Hw Hv. destruct (json_value_starts v Hv) as (c & rest & -> & Hc).
  exists c, (rest ++ tail). split; [|exact Hc].
  apply skip_ws_app; [exact Hw|].
  apply starts_value_not_ws, Hc.
Qed.

Lemma separated_starts (body tail : text) :
  separated json_value body ->
  exists c rest, skip_ws (body ++ tail) = c :: rest /\
                 starts_value c = true.
Proof.
  intros [w1 x w2 Hw1 Hx Hw2|w1 x w2 more Hw1 Hx Hw2 Hmore];
    rewrite <- ?app_assoc; apply skip_ws_value; assumption.
Qed.

(** With the settings of line 81 an infinite amount is written as the
    token [Infinity], and the text is no JSON text. *)
Lemma Infinity_is_no_JSON :
  dumps (Some 2%nat) false (JList [JFloat (S754_infinity false)])
  = lit "[" ++ newline :: lit "  Infinity" ++ newline :: lit "]" /\
  ~ json_text (lit "[" ++ newline :: lit "  Infinity" ++ newline :: lit "]").
Proof.
  split; [reflexivity|].
  intros (w1 & v & w2 & Hw1 & Hv & Hw2 & E).
  lit_norm. simpl in E.
  destruct w1 as [|c1 w1];
    [|injection E as <- _; discriminate].
  simpl in E.
  destruct Hv as [| | |s Hs|s Hs|w Hw|body Hb|w Hw|body Hb];
    lit_norm; try discriminate E.
  - destruct s as [|c s]; [discriminate|]. injection E as <- _. discriminate.
  - destruct Hs. discriminate.
  - injection E as E. rewrite <- ?app_assoc in E.
    pose proof (skip_ws_app w 93%N w2 Hw eq_refl) as Hskip.
    change ((w ++ [93%N]) ++ w2) with ((w ++ [93%N]) ++ w2) in E.
    simpl in E. rewrite <- E in Hskip. discriminate.
  - injection E as E. rewrite <- ?app_assoc in E.
    destruct (separated_starts body (93%N :: w2) Hb) as (c & rest & Hskip & Hc).
    simpl in E. rewrite <- E in Hskip. injection Hskip as <- _. discriminate.
Qed.

(** ** Properties of the record normalizer *)

(** C2. The listing of a row holds the key [compensation] exactly when
    [min_amount] or [max_amount] is not missing in the row; with both
    missing the key is absent altogether. *)
Theorem compensation_key_iff_amount_present (row : Series) (now : string)
    (d : dict) :
  normalize row now = Ok d ->
  (has_key d "compensation" = true <->
   notna (get row "min_amount" CNone) = true \/
   notna (get row "max_amount" CNone) = true) /\
  (notna (get row "min_amount" CNone) = false ->
   notna (get row "max_amount" CNone) = false ->
   dict_get d "compensation" = None).
Proof.
  intros H. unfold has_key.
  destruct (normalize_get_compensation _ _ _ H)
    as [[Ha ->]|(Ha & c & _ & ->)];
    unfold has_amount in Ha.
  - apply orb_false_iff in Ha as [-> ->]. split; [|reflexivity].
    split; [discriminate|]. intros [?|?]; discriminate.
  - apply orb_true_iff in Ha. split; [tauto|].
    intros H1 H2. rewrite H1, H2 in Ha. destruct Ha; discriminate.
Qed.

(** C3, as the code has it.  For each of the eight keys that the script
    guards with [pd.notna], a missing value (the column absent, [None],
    [pd.NA] or NaN) gives [null] and any other value gives its [str]; each
    of the seven other string keys always holds a string, which is the
    default of its [row.get] when the column is absent. *)
Theorem nullable_fields_null_when_missing (row : Series) (now : string)
    (d : dict) :
  normalize row now = Ok d ->
  (forall key, In key nullable_keys ->
     (notna (get row key CNone) = false -> dict_get d key = Some JNull) /\
     (notna (get row key CNone) = true ->
      dict_get d key = Some (JStr (str (get row key CNone))))) /\
  (forall key default, In (key, default) (string_defaults now) ->
     exists s, dict_get d key = Some (JStr s) /\
               (row !! key = None -> s = lit default)).
Proof.
  intros H. destruct (normalize_get _ _ _ H) as (jd & Hjd & Hsame).
  pose proof (job_data_get _ _ _ Hjd) as Hget.
  destruct Hget as (Ht & Hc & Hcu & Hju & Hl & Hci & Hst & Hco & _ & Hjt
                    & Hdp & Hde & Hsi & Hjl & Hind & Hss & _).
  split.
  - intros key Hin.
    assert (dict_get d key = Some (nullable_field row key)) as ->.
    { rewrite Hsame.
      - simpl in Hin; intuition (subst; assumption).
      - intros ->. simpl in Hin. intuition discriminate. }
    unfold nullable_field, get.
    destruct (row !! key) as [v|]; simpl;
      split; intros E; try rewrite E; try reflexivity; discriminate.
  - intros key default Hin.
    simpl in Hin.
    destruct Hin as [E|[E|[E|[E|[E|[E|[E|[]]]]]]]]; injection E as <- <-;
      (rewrite Hsame; [|discriminate]);
      unfold str_field, get in *;
      eexists; (split; [eassumption|]); intros ->; reflexivity.
Qed.

(** C6. When [min_amount] or [max_amount] is present, the listing holds
    under [compensation] a dictionary with the keys [min_amount],
    [max_amount], [interval] and [currency], in which each amount is the
    [float] of the row's value, or [null] when that one is missing, and in
    which [interval] and [currency] are [yearly] and [USD] when the row has
    no such column or a missing value there, and the [str] of the row's
    value otherwise. *)
Theorem compensation_amounts_and_defaults (row : Series) (now : string)
    (d : dict) :
  normalize row now = Ok d ->
  notna (get row "min_amount" CNone) = true \/
  notna (get row "max_amount" CNone) = true ->
  exists lo hi interval currency,
    dict_get d "compensation" =
      Some (JDict [("min_amount", lo); ("max_amount", hi);
                   ("interval", JStr interval);
                   ("currency", JStr currency)]) /\
    (if notna (get row "min_amount" CNone)
     then exists x, float (get row "min_amount" CNone) = Ok x /\
                    lo = JFloat x
     else lo = JNull) /\
    (if notna (get row "max_amount" CNone)
     then exists x, float (get row "max_amount" CNone) = Ok x /\
                    hi = JFloat x
     else hi = JNull) /\
    interval = (if notna (get row "interval" CNone)
                then str (get row "interval" CNone) else lit "yearly") /\
    currency = (if notna (get row "currency" CNone)
                then str (get row "currency" CNone) else lit "USD").
Proof.
  intros H Hpresent.
  destruct (normalize_get_compensation _ _ _ H)
    as [[Ha _]|(_ & c & Hc & ->)].
  { unfold has_amount in Ha. apply orb_false_iff in Ha as [E1 E2].
    rewrite E1, E2 in Hpresent. destruct Hpresent; discriminate. }
  clear H Hpresent. unfold compensation, amount_field in Hc.
  destruct (notna (get row "min_amount" CNone));
    [destruct (float (get row "min_amount" CNone)) as [x|e];
       [|discriminate]|];
    (destruct (notna (get row "max_amount" CNone));
       [destruct (float (get row "max_amount" CNone)) as [y|e];
          [|discriminate]|]);
    simpl in Hc; injection Hc as <-;
    rewrite !defaulted_field_eq;
    do 4 eexists; (split; [reflexivity|]);
    repeat split; eauto.
Qed.

(** C7. The description of the listing is the first 5000 characters of
    the [str] of the row's description (of the empty string when the row
    has no such column): it is one of its prefixes, its length is the
    smaller of 5000 and the length of the input, and nothing is added. *)
Theorem description_is_first_5000_characters (row : Series) (now : string)
    (d : dict) :
  normalize row now = Ok d ->
  let input := str (get row "description" (CStr (lit ""))) in
  exists description,
    dict_get d "description" = Some (JStr description) /\
    description = slice_to 5000 input /\
    (length description <= 5000)%nat /\
    length description = Nat.min 5000 (length input) /\
    (exists rest, input = description ++ rest) /\
    ((length input <= 5000)%nat -> description = input).
Proof.
  intros H input. destruct (normalize_get _ _ _ H) as (jd & Hjd & Hsame).
  pose proof (job_data_get _ _ _ Hjd) as Hget.
  destruct Hget as (_&_&_&_&_&_&_&_&_&_&_& Hde &_).
  exists (slice_to 5000 input). split.
  { rewrite Hsame; [exact Hde|discriminate]. }
  split; [reflexivity|].
  rewrite slice_to_length.
  split; [lia|]. split; [reflexivity|].
  split; [apply slice_to_prefix|apply slice_to_short].
Qed.

(** The [is_remote] of the listing is [bool] of the row's value, with
    [False] standing in for an absent column. *)
Lemma is_remote_is_bool (row : Series) (now : string) (d : dict) :
  normalize row now = Ok d ->
  exists b, bool_ (get row "is_remote" (CBool false)) = Ok b /\
            dict_get d "is_remote" = Some (JBool b).
Proof.
  intros H. destruct (normalize_get _ _ _ H) as (jd & Hjd & Hsame).
  pose proof (job_data_get _ _ _ Hjd) as Hget.
  destruct Hget as (_&_&_&_&_&_&_&_& (b & Hb & Hget) &_).
  exists b. split; [exact Hb|]. rewrite Hsame; [exact Hget|discriminate].
Qed.

(** It is false when the row has no such column or holds [None] there. *)
Lemma is_remote_false_when_absent_or_None (row : Series) (now : string)
    (d : dict) :
  normalize row now = Ok d ->
  row !! "is_remote" = None \/ row !! "is_remote" = Some CNone ->
  dict_get d "is_remote" = Some (JBool false).
Proof.
  intros H Hrow. destruct (is_remote_is_bool _ _ _ H) as (b & Hb & ->).
  unfold get in Hb. destruct Hrow as [E|E]; rewrite E in Hb; simpl in Hb;
    congruence.
Qed.

(** ** Properties of the whole script *)

(** The builtins raise nothing but instances of [Exception]. *)
Lemma bool_raises (v : cell) (e : exn) :
  bool_ v = Raise e -> is_Exception e = true.
Proof.
  destruct v as [| |s|b|n|x|iso]; try discriminate.
  - intros [= <-]. reflexivity.
  - destruct x; discriminate.
Qed.

Lemma float_of_int_raises (n : Z) (e : exn) :
  float_of_int n = Raise e -> is_Exception e = true.
Proof.
  unfold float_of_int.
  destruct (binary_normalize 53 1024 n 0 false); try discriminate.
  intros [= <-]. reflexivity.
Qed.

Lemma float_raises (v : cell) (e : exn) :
  float v = Raise e -> is_Exception e = true.
Proof.
  destruct v as [| |s|b|n|x|iso]; unfold float;
    try (intros [= <-]; reflexivity);
    try apply float_of_int_raises; try discriminate.
  destruct (float_of_str s); [discriminate|]. intros [= <-]. reflexivity.
Qed.

Lemma amount_field_raises (row : Series) (key : string) (e : exn) :
  amount_field row key = Raise e -> is_Exception e = true.
Proof.
  unfold amount_field. destruct (notna (get row key CNone)); [|discriminate].
  destruct (float (get row key CNone)) as [x|e'] eqn:E; [discriminate|].
  intros [= <-]. eapply float_raises, E.
Qed.

Lemma normalize_raises (row : Series) (now : string) (e : exn) :
  normalize row now = Raise e -> is_Exception e = true.
Proof.
  unfold normalize, job_data.
  destruct (bool_ (get row "is_remote" (CBool false))) as [b|e0] eqn:Hb.
  - cbn [mbind result_bind]. destruct (has_amount row); [|discriminate].
    unfold compensation.
    destruct (amount_field row "min_amount") as [lo|e1] eqn:E1.
    + destruct (amount_field row "max_amount") as [hi|e2] eqn:E2;
        [discriminate|].
      intros [= <-]. eapply amount_field_raises, E2.
    + intros [= <-]. eapply amount_field_raises, E1.
  - intros [= <-]. eapply bool_raises, Hb.
Qed.

Lemma jobs_data_from_raises (clk : nat -> string) (todo : list Series)
    (i : nat) (e : exn) :
  jobs_data_from clk i todo = Raise e -> is_Exception e = true.
Proof.
  revert i. induction todo as [|row rest IH]; intros i;
    cbn [jobs_data_from]; [discriminate|].
  destruct (normalize row (clk i)) as [d|e'] eqn:Hn.
  - destruct (jobs_data_from clk (S i) rest) as [more|e'] eqn:Hmore;
      [discriminate|].
    intros [= <-]. eapply IH, Hmore.
  - intros [= <-]. eapply normalize_raises, Hn.
Qed.

(** Whatever [main] raises, it is no [ImportError]: its handler turns
    every [Exception] into [SystemExit]. *)
Lemma main_raises_no_ImportError (a : args.t) (w : World) :
  match fst (main a w) with
  | Raise e => is_ImportError e = false
  | Ok _ => True
  end.
Proof.
  unfold main, try_except.
  match goal with
  | |- context [match ?body w with _ => _ end] => destruct (body w) as [[[]|e] w']
  end; cbn [fst]; [exact I|].
  destruct e; reflexivity.
Qed.

(** With both libraries installed the script is [main]. *)
Lemma run_imports (a : args.t) (w : World) :
  jobspy_installed env = true -> pandas_installed env = true ->
  run a w = (exit_status (fst (main a w)), snd (main a w)).
Proof.
  intros H1 H2. unfold run, script, try_except, import, mbind, M_bind.
  rewrite H1, H2. cbn [mret M_ret].
  pose proof (main_raises_no_ImportError a w) as Hmain.
  destruct (main a w) as [[[]|e] w']; cbn [fst snd] in *; [reflexivity|].
  rewrite Hmain. reflexivity.
Qed.

Lemma main_scrape_raises (a : args.t) (w : World) (msg : string) :
  scrape_jobs env (scrape_kwargs a) = inl msg ->
  main a w = (Raise (SystemExit 1), failed a (ScrapeError msg) w).
Proof.
  intros H. unfold main, try_except, call_scrape_jobs, mbind, M_bind, print.
  simpl. rewrite H. reflexivity.
Qed.

Lemma main_transform_raises (a : args.t) (w : World) (df : DataFrame)
    (e : exn) :
  scrape_jobs env (scrape_kwargs a) = inr (Some df) ->
  empty df = false ->
  jobs_data (clock env) df = Raise e ->
  main a w = (Raise (SystemExit 1), failed a e w).
Proof.
  intros H Hne Hjd.
  pose proof (jobs_data_from_raises _ _ _ _ Hjd) as He.
  unfold main, try_except, call_scrape_jobs, mbind, M_bind, print, lift.
  simpl. rewrite H, Hne. simpl. rewrite Hjd, He. reflexivity.
Qed.

Lemma main_no_jobs (a : args.t) (w : World) (jobs_df : option DataFrame) :
  scrape_jobs env (scrape_kwargs a) = inr jobs_df ->
  match jobs_df with Some df => empty df = true | None => True end ->
  main a w =
    (Ok tt, {| files := <[args.output a := lit "[]"]> (files w);
               stderr := stderr (called a w) ++ [No_jobs_found];
               calls := calls (called a w) |}).
Proof.
  intros H Hempty.
  unfold main, try_except, call_scrape_jobs, mbind, M_bind, print, no_jobs.
  simpl. rewrite H. destruct jobs_df as [df|]; [rewrite Hempty|];
    reflexivity.
Qed.

Lemma main_jobs (a : args.t) (w : World) (df : DataFrame) (jd : list dict) :
  scrape_jobs env (scrape_kwargs a) = inr (Some df) ->
  empty df = false ->
  jobs_data (clock env) df = Ok jd ->
  encodable (dumps (Some 2%nat) false (JList (map JDict jd))) = true ->
  main a w =
    (Ok tt,
     {| files := <[args.output a :=
                     dumps (Some 2%nat) false (JList (map JDict jd))]>
                   (files w);
        stderr := stderr (called a w) ++ [Successfully_scraped (length jd)];
        calls := calls (called a w) |}).
Proof.
  intros H Hne Hjd Henc.
  unfold main, try_except, call_scrape_jobs, mbind, M_bind, print, lift,
    write_file.
  cbn [files stderr calls]. rewrite H, Hne. cbn [negb]. rewrite Hjd, Henc.
  reflexivity.
Qed.

(** The write of line 81 raises when the text cannot be encoded; the
    handler then overwrites what the failed write has left. *)
Lemma main_write_raises (a : args.t) (w : World) (df : DataFrame)
    (jd : list dict) :
  scrape_jobs env (scrape_kwargs a) = inr (Some df) ->
  empty df = false ->
  jobs_data (clock env) df = Ok jd ->
  encodable (dumps (Some 2%nat) false (JList (map JDict jd))) = false ->
  main a w = (Raise (SystemExit 1), failed a UnicodeEncodeError w).
Proof.
  intros H Hne Hjd Henc.
  unfold main, try_except, call_scrape_jobs, mbind, M_bind, print, lift,
    write_file, failed, called.
  cbn [files stderr calls]. rewrite H, Hne. cbn [negb]. rewrite Hjd, Henc.
  cbn [is_Exception files stderr calls].
  change (encodable (dumps None true (JList []))) with true.
  cbn iota. rewrite insert_insert_eq. reflexivity.
Qed.

(** The loop keeps one dictionary per row, in the order of the rows. *)
Lemma jobs_data_from_Ok (clk : nat -> string) (todo : list Series) (i : nat)
    (jd : list dict) :
  jobs_data_from clk i todo = Ok jd ->
  length jd = length todo /\
  forall (k : nat) (row : Series), todo !! k = Some row ->
    exists d, jd !! k = Some d /\ normalize row (clk (i + k)%nat) = Ok d.
Proof.
  revert i jd. induction todo as [|row rest IH]; intros i jd;
    cbn [jobs_data_from].
  - intros [= <-]. split; [reflexivity|]. intros k r Hk. discriminate.
  - destruct (normalize row (clk i)) as [d|e] eqn:Hn; [|discriminate].
    destruct (jobs_data_from clk (S i) rest) as [more|e] eqn:Hmore;
      [|discriminate].
    intros [= <-]. destruct (IH _ _ Hmore) as [Hlen Hnth].
    split; [simpl; congruence|].
    intros [|k] r Hk; simpl in Hk.
    + injection Hk as <-. exists d. rewrite Nat.add_0_r. auto.
    + destruct (Hnth _ _ Hk) as (d' & Hd' & Hn').
      exists d'. split; [exact Hd'|].
      replace (i + S k)%nat with (S i + k)%nat by lia. exact Hn'.
Qed.

Lemma bool_returns (v : cell) : v <> CNA -> exists b, bool_ v = Ok b.
Proof.
  destruct v as [| |s|b|n|x|iso]; intros H; try (eexists; reflexivity).
  - congruence.
  - destruct x; eexists; reflexivity.
Qed.

Lemma amount_field_returns (row : Series) (key : string) :
  (notna (get row key CNone) = true ->
   exists x, float (get row key CNone) = Ok x) ->
  exists v, amount_field row key = Ok v.
Proof.
  unfold amount_field. destruct (notna (get row key CNone)); [|eauto].
  intros H. destruct (H eq_refl) as [x ->]. eexists. reflexivity.
Qed.

(** A row is normalized without an exception when its [is_remote] is not
    [pd.NA] and [float] accepts the amounts that are there. *)
Lemma normalize_returns (row : Series) (now : string) :
  get row "is_remote" (CBool false) <> CNA ->
  (forall key, In key ["min_amount"; "max_amount"] ->
     notna (get row key CNone) = true ->
     exists x, float (get row key CNone) = Ok x) ->
  exists d, normalize row now = Ok d.
Proof.
  intros Hremote Hfloat. unfold normalize, job_data.
  destruct (bool_returns _ Hremote) as [b ->].
  cbn [mbind result_bind]. destruct (has_amount row); [|eauto].
  unfold compensation.
  destruct (amount_field_returns row "min_amount") as [lo ->];
    [apply Hfloat; left; reflexivity|].
  destruct (amount_field_returns row "max_amount") as [hi ->];
    [apply Hfloat; right; left; reflexivity|].
  cbn [mbind result_bind]. eauto.
Qed.

(** The loop returns when every turn of its body does. *)
Lemma jobs_data_from_returns (clk : nat -> string) (todo : list Series)
    (i : nat) :
  (forall (k : nat) (row : Series), todo !! k = Some row ->
     exists d, normalize row (clk (i + k)%nat) = Ok d) ->
  exists jd, jobs_data_from clk i todo = Ok jd.
Proof.
  revert i. induction todo as [|row rest IH]; intros i Hall;
    cbn [jobs_data_from]; [eauto|].
  destruct (Hall 0%nat row eq_refl) as [d Hd].
  rewrite Nat.add_0_r in Hd. rewrite Hd.
  destruct (IH (S i)) as [more ->].
  - intros k r Hk. replace (S i + k)%nat with (i + S k)%nat by lia.
    apply Hall. exact Hk.
  - cbn. eauto.
Qed.

(** Without JobSpy the script prints its hint, writes no file and calls
    nothing; the process ends with status 1.  The same without pandas. *)
Lemma missing_library_exits_1 (a : args.t) (w : World) :
  jobspy_installed env = false \/ pandas_installed env = false ->
  fst (run a w) = 1 /\
  files (snd (run a w)) = files w /\
  calls (snd (run a w)) = calls w.
Proof.
  unfold run, script, try_except, import, mbind, M_bind.
  destruct (jobspy_installed env), (pandas_installed env);
    intros [E|E]; try discriminate E; repeat split.
Qed.

(** With both libraries installed, and the file system letting the file
    be written, every run leaves a file at the output path and ends with
    status 0 or 1; after status 1 the file holds [[]]. *)
Lemma output_file_always_written (a : args.t) (w : World) :
  jobspy_installed env = true -> pandas_installed env = true ->
  exists content,
    files (snd (run a w)) !! args.output a = Some content /\
    (fst (run a w) = 0 \/ fst (run a w) = 1 /\ content = lit "[]").
Proof.
  intros H1 H2. rewrite (run_imports a w H1 H2).
  destruct (scrape_jobs env (scrape_kwargs a)) as [msg|[df|]] eqn:H.
  - rewrite (main_scrape_raises a w msg H). eexists.
    split; [apply lookup_insert_eq|]. right. split; reflexivity.
  - destruct (empty df) eqn:Hne.
    + rewrite (main_no_jobs a w (Some df) H Hne). eexists.
      split; [apply lookup_insert_eq|]. left. reflexivity.
    + destruct (jobs_data (clock env) df) as [jd|e] eqn:Hjd.
      * destruct (encodable (dumps (Some 2%nat) false
                               (JList (map JDict jd)))) eqn:Henc.
        { rewrite (main_jobs a w df jd H Hne Hjd Henc). eexists.
          split; [apply lookup_insert_eq|]. left. reflexivity. }
        { rewrite (main_write_raises a w df jd H Hne Hjd Henc). eexists.
          split; [apply lookup_insert_eq|]. right. split; reflexivity. }
      * rewrite (main_transform_raises a w df e H Hne Hjd). eexists.
        split; [apply lookup_insert_eq|]. right. split; reflexivity.
  - rewrite (main_no_jobs a w None H I). eexists.
    split; [apply lookup_insert_eq|]. left. reflexivity.
Qed.

(** A DataFrame whose rows are all normalized, but to a text that UTF-8
    cannot encode, ends like an exception of the transformation: the
    handler of lines 91-96 leaves [[]] at the output path, and the process
    ends with status 1. *)
Lemma unencodable_text_leaves_empty_array (a : args.t) (w : World)
    (df : DataFrame) (jd : list dict) :
  jobspy_installed env = true -> pandas_installed env = true ->
  scrape_jobs env (scrape_kwargs a) = inr (Some df) ->
  empty df = false ->
  jobs_data (clock env) df = Ok jd ->
  clean_json (JList (map JDict jd)) = false ->
  fst (run a w) = 1 /\
  files (snd (run a w)) !! args.output a = Some (lit "[]") /\
  stderr (snd (run a w)) =
    stderr w ++ [Starting_job_scrape (args.query a) (args.location a);
                 Error_during_job_scraping UnicodeEncodeError].
Proof.
  intros H1 H2 H Hne Hjd Hclean. rewrite <- (dumps_encodable (Some 2%nat)) in Hclean.
  rewrite (run_imports a w H1 H2).
  rewrite (main_write_raises a w df jd H Hne Hjd Hclean).
  cbn [fst snd exit_status failed called files stderr].
  split; [reflexivity|]. split; [apply lookup_insert_eq|].
  rewrite <- app_assoc. reflexivity.
Qed.

(** C1. When the collaborator raises, or the transformation of a row
    does, the script leaves [[]] at the output path and the process ends
    with status 1. *)
Theorem exception_writes_empty_array_and_exits_1 (a : args.t) (w : World) :
  jobspy_installed env = true -> pandas_installed env = true ->
  (exists msg, scrape_jobs env (scrape_kwargs a) = inl msg) \/
  (exists df e, scrape_jobs env (scrape_kwargs a) = inr (Some df) /\
                empty df = false /\
                jobs_data (clock env) df = Raise e) ->
  fst (run a w) = 1 /\
  files (snd (run a w)) !! args.output a = Some (lit "[]").
Proof.
  intros H1 H2 Hraise. rewrite (run_imports a w H1 H2).
  destruct Hraise as [[msg H]|(df & e & H & Hne & Hjd)].
  - rewrite (main_scrape_raises a w msg H).
    split; [reflexivity|]. apply lookup_insert_eq.
  - rewrite (main_transform_raises a w df e H Hne Hjd).
    split; [reflexivity|]. apply lookup_insert_eq.
Qed.

(** C4. When the collaborator returns [None] or a DataFrame without rows,
    the script leaves exactly [[]] at the output path and the process ends
    with status 0. *)
Theorem no_jobs_writes_empty_array_and_exits_0 (a : args.t) (w : World) :
  jobspy_installed env = true -> pandas_installed env = true ->
  scrape_jobs env (scrape_kwargs a) = inr None \/
  (exists df, scrape_jobs env (scrape_kwargs a) = inr (Some df) /\
              rows df = []) ->
  fst (run a w) = 0 /\
  files (snd (run a w)) !! args.output a = Some (lit "[]").
Proof.
  intros H1 H2 Hnone. rewrite (run_imports a w H1 H2).
  destruct Hnone as [H|(df & H & Hrows)].
  - rewrite (main_no_jobs a w None H I).
    split; [reflexivity|]. apply lookup_insert_eq.
  - rewrite (main_no_jobs a w (Some df) H).
    + split; [reflexivity|]. apply lookup_insert_eq.
    + unfold empty. rewrite Hrows. destruct (columns df); reflexivity.
Qed.

(** C5, as the code has it.  When the collaborator returns a DataFrame
    that is not empty, every row is normalized without an exception, and
    the text [json.dump] makes of the listings is one that UTF-8 encodes
    (no string in it holds a lone surrogate), the process ends with status
    0 and the script leaves that text at the output path: the one
    [json.dump] writes, with [indent=2], for a list with one dictionary per
    row, the dictionary at each position being the listing of the row at
    that position.  That text is a JSON text of RFC 8259 as long as no
    amount in it is NaN or an infinity ([float.__repr__] printing JSON
    numbers for all other floats). *)
Theorem jobs_written_one_per_row_in_order (a : args.t) (w : World)
    (df : DataFrame) (jd : list dict) :
  jobspy_installed env = true -> pandas_installed env = true ->
  scrape_jobs env (scrape_kwargs a) = inr (Some df) ->
  empty df = false ->
  jobs_data (clock env) df = Ok jd ->
  encodable (dumps (Some 2%nat) false (JList (map JDict jd))) = true ->
  let content := dumps (Some 2%nat) false (JList (map JDict jd)) in
  fst (run a w) = 0 /\
  files (snd (run a w)) !! args.output a = Some content /\
  length jd = length (rows df) /\
  (forall (k : nat) (row : Series), rows df !! k = Some row ->
     exists d, jd !! k = Some d /\ normalize row (clock env k) = Ok d) /\
  ((forall s m e, is_number (lit (repr_finite s m e)) = true) ->
   finite_json (JList (map JDict jd)) = true ->
   json_text content).
Proof.
  intros H1 H2 H Hne Hjd Henc content. rewrite (run_imports a w H1 H2).
  rewrite (main_jobs a w df jd H Hne Hjd Henc).
  split; [reflexivity|]. split; [apply lookup_insert_eq|].
  destruct (jobs_data_from_Ok (clock env) (rows df) 0 jd Hjd) as [Hlen Hnth].
  split; [exact Hlen|]. split; [exact Hnth|].
  intros Hrepr Hfin. apply dumps_text; [assumption..|].
  rewrite <- (dumps_encodable (Some 2%nat)). exact Henc.
Qed.

(** C9. Two invocations that differ only in [--experience-level] pass
    the same keyword arguments to [scrape_jobs]; in the same surroundings
    they behave alike altogether. *)
Theorem experience_level_never_forwarded (a1 a2 : args.t) (w : World) :
  same_but_experience_level a1 a2 ->
  scrape_kwargs a1 = scrape_kwargs a2 /\
  calls (snd (run a1 w)) = calls (snd (run a2 w)) /\
  run a1 w = run a2 w.
Proof.
  destruct a1, a2. unfold same_but_experience_level. simpl.
  intros (-> & -> & -> & -> & -> & ->). repeat split.
Qed.

(** C10. Two invocations that differ only in [--job-type] pass the same
    keyword arguments to [scrape_jobs] and, in the same surroundings, end
    with the same status, the same files, the same printed lines and the
    same calls. *)
Theorem job_type_has_no_effect (a1 a2 : args.t) (w : World) :
  same_but_job_type a1 a2 ->
  scrape_kwargs a1 = scrape_kwargs a2 /\
  run a1 w = run a2 w.
Proof.
  destruct a1, a2. unfold same_but_job_type. simpl.
  intros (-> & -> & -> & -> & -> & ->). split; reflexivity.
Qed.

(** ** Further properties: the list of sites (line 33) *)

Lemma count_commas_app (s t : string) :
  count_commas (s +:+ t) = (count_commas s + count_commas t)%nat.
Proof.
  induction s as [|c s IH]; [reflexivity|].
  rewrite append_cons. simpl. destruct (Ascii.eqb c ","); simpl; congruence.
Qed.

Lemma split_comma_cons (s : string) :
  exists piece pieces, split_comma s = piece :: pieces.
Proof.
  induction s as [|c s (piece & pieces & IH)]; simpl; [eauto|].
  destruct (Ascii.eqb c ","); [eauto|]. rewrite IH. eauto.
Qed.

Lemma join_cons_piece (c : ascii) (piece : string) (pieces : list string) :
  join "," (String c piece :: pieces) = String c (join "," (piece :: pieces)).
Proof. destruct pieces; reflexivity. Qed.

Lemma split_comma_facts (s : string) :
  join "," (split_comma s) = s /\
  length (split_comma s) = S (count_commas s) /\
  Forall (fun piece => count_commas piece = 0%nat) (split_comma s).
Proof.
  induction s as [|c s (Hjoin & Hlen & Hall)]; simpl.
  - repeat split. repeat constructor.
  - destruct (Ascii.eqb_spec c ",") as [->|Hc].
    + repeat split.
      * destruct (split_comma_cons s) as (piece & pieces & E).
        rewrite E in *. change (join "," ("" :: piece :: pieces))
          with ("" +:+ "," +:+ join "," (piece :: pieces)).
        rewrite Hjoin. reflexivity.
      * simpl. congruence.
      * constructor; [reflexivity|exact Hall].
    + destruct (split_comma_cons s) as (piece & pieces & E).
      rewrite E in *. repeat split.
      * rewrite join_cons_piece, Hjoin. reflexivity.
      * exact Hlen.
      * apply Forall_cons in Hall as [Hp Hrest].
        apply Forall_cons. split; [|exact Hrest].
        simpl. destruct (Ascii.eqb_spec c ","); [contradiction|exact Hp].
Qed.

(** X1. [sites.split(',')] loses nothing: joining the pieces with commas
    gives the string back; there is one more piece than there are commas,
    so the list is never empty; and no piece holds a comma. *)
Theorem split_comma_pieces (s : string) :
  join "," (split_comma s) = s /\
  length (split_comma s) = S (count_commas s) /\
  Forall (fun piece => count_commas piece = 0%nat) (split_comma s).
Proof. exact (split_comma_facts s). Qed.

Lemma all_space_app (s t : string) :
  all_space s = true -> all_space t = true -> all_space (s +:+ t) = true.
Proof.
  induction s as [|c s IH]; [auto|]. rewrite append_cons. simpl.
  intros [Hc Hs]%andb_true_iff Ht. rewrite Hc. simpl. auto.
Qed.

Lemma lstrip_decomp (s : string) :
  exists front, s = front +:+ lstrip s /\ all_space front = true.
Proof.
  induction s as [|c s (front & E & Hfront)]; simpl.
  - exists "". split; reflexivity.
  - destruct (isspace c) eqn:Hc.
    + exists (String c front). rewrite append_cons, <- E.
      split; [reflexivity|]. simpl. rewrite Hc. exact Hfront.
    + exists "". split; reflexivity.
Qed.

Lemma lstrip_first (s : string) (c : ascii) (rest : string) :
  lstrip s = String c rest -> isspace c = false.
Proof.
  induction s as [|c' s IH]; simpl; [discriminate|].
  destruct (isspace c') eqn:Hc'; [exact IH|]. intros [= <- _]. exact Hc'.
Qed.

Lemma rstrip_decomp (s : string) :
  exists back, s = rstrip s +:+ back /\ all_space back = true.
Proof.
  induction s as [|c s (back & E & Hback)]; simpl.
  - exists "". split; reflexivity.
  - destruct (rstrip s) as [|k kept] eqn:Hkept.
    + rewrite append_nil_l in E. subst back.
      destruct (isspace c) eqn:Hc.
      * exists (String c s). split; [reflexivity|]. simpl. rewrite Hc.
        exact Hback.
      * exists s. split; [reflexivity|exact Hback].
    + exists back. rewrite append_cons, <- E. split; [reflexivity|exact Hback].
Qed.

Lemma rstrip_last (s front : string) (c : ascii) :
  rstrip s = front +:+ String c "" -> isspace c = false.
Proof.
  revert front. induction s as [|a s IH]; intros front; simpl.
  - destruct front; discriminate.
  - destruct (rstrip s) as [|k kept] eqn:Hkept.
    + destruct (isspace a) eqn:Ha.
      * destruct front; discriminate.
      * destruct front as [|f front]; [intros [= <-]; exact Ha|].
        rewrite append_cons. intros [= _ E]. destruct front; discriminate.
    + destruct front as [|f front]; [discriminate|].
      rewrite append_cons. intros [= _ E]. apply (IH front). exact E.
Qed.

(** [s.strip()] takes whitespace away from the two ends and nothing
    else. *)
Lemma strip_decomp (s : string) :
  exists front back, s = front +:+ strip s +:+ back /\
                     all_space front = true /\ all_space back = true.
Proof.
  destruct (lstrip_decomp s) as (front & E1 & Hfront).
  destruct (rstrip_decomp (lstrip s)) as (back & E2 & Hback).
  exists front, back. unfold strip. rewrite <- E2. auto.
Qed.

Lemma strip_trimmed (s : string) : trimmed (strip s).
Proof.
  unfold strip. split.
  - intros c rest E. destruct (rstrip_decomp (lstrip s)) as (back & E2 & _).
    rewrite E, append_cons in E2. eapply lstrip_first, E2.
  - intros front c E. eapply rstrip_last, E.
Qed.

Lemma lookup_map {A B : Type} (f : A -> B) (l : list A) (k : nat) (y : B) :
  map f l !! k = Some y -> exists x, l !! k = Some x /\ y = f x.
Proof.
  revert k. induction l as [|x l IH]; intros [|k]; simpl; try discriminate.
  - intros [= <-]. eauto.
  - apply IH.
Qed.

(** X2. The list passed as [site_name] has one name per comma-separated
    piece of [--sites], so it is never empty; each name is its piece
    without the whitespace around it, neither starts nor ends with
    whitespace, and holds no comma. *)
Theorem site_names_are_stripped_pieces (a : args.t) :
  let names := kwargs.site_name (scrape_kwargs a) in
  length names = S (count_commas (args.sites a)) /\
  forall (k : nat) (site : string), names !! k = Some site ->
    trimmed site /\ count_commas site = 0%nat /\
    exists piece front back,
      split_comma (args.sites a) !! k = Some piece /\
      piece = front +:+ site +:+ back /\
      all_space front = true /\ all_space back = true.
Proof.
  cbn [scrape_kwargs kwargs.site_name].
  destruct (split_comma_facts (args.sites a)) as (_ & Hlen & Hall).
  split; [rewrite length_map; exact Hlen|].
  intros k site Hk. apply lookup_map in Hk as (piece & Hpiece & ->).
  split; [apply strip_trimmed|].
  destruct (strip_decomp piece) as (front & back & E & Hfront & Hback).
  split.
  - rewrite Forall_forall in Hall.
    assert (count_commas piece = 0%nat) as Hzero
      by (apply Hall; eapply list_elem_of_lookup_2, Hpiece).
    rewrite E, !count_commas_app in Hzero. lia.
  - exists piece, front, back. auto.
Qed.

(** ** Further properties: the record normalizer (lines 49-77) *)

(** X3. Every listing has the same sixteen keys in the same order,
    followed by [compensation] exactly when an amount is present; no key
    occurs twice. *)
Theorem listing_keys_fixed (row : Series) (now : string) (d : dict) :
  normalize row now = Ok d ->
  map fst d =
    (["title"; "company"; "company_url"; "job_url"; "location"; "city";
      "state"; "country"; "is_remote"; "job_type"; "date_posted";
      "description"; "site"; "job_level"; "company_industry";
      "salary_source"]
     ++ (if has_amount row then ["compensation"] else []))%list /\
  NoDup (map fst d).
Proof.
  intros H. pose proof (normalize_keys _ _ _ H) as Hkeys.
  split; [exact Hkeys|]. rewrite Hkeys.
  destruct (has_amount row);
    refine (bool_decide_unpack _ _); vm_compute; exact I.
Qed.

(** X4. The [is_remote] of a listing is a boolean, the [bool] of the
    row's value; it is false when the row has no such column and when the
    value is [None], [False], zero or the empty string. *)
Theorem is_remote_coerced_to_bool (row : Series) (now : string) (d : dict) :
  normalize row now = Ok d ->
  exists b,
    dict_get d "is_remote" = Some (JBool b) /\
    bool_ (get row "is_remote" (CBool false)) = Ok b /\
    (row !! "is_remote" = None \/
     (exists v, row !! "is_remote" = Some v /\
                In v [CNone; CBool false; CInt 0; CStr (lit "");
                      CFloat (S754_zero false); CFloat (S754_zero true)]) ->
     b = false).
Proof.
  intros H. destruct (is_remote_is_bool _ _ _ H) as (b & Hb & Hget).
  exists b. split; [exact Hget|]. split; [exact Hb|].
  unfold get in Hb. intros [E|(v & E & Hv)]; rewrite E in Hb.
  - simpl in Hb. congruence.
  - simpl in Hv.
    destruct Hv as [<-|[<-|[<-|[<-|[<-|[<-|[]]]]]]]; simpl in Hb; congruence.
Qed.

Lemma bool_Raise (v : cell) (e : exn) :
  bool_ v = Raise e -> v = CNA /\ e = TypeError.
Proof.
  destruct v as [| |s|b|n|x|iso]; try discriminate.
  - intros [= <-]. auto.
  - destruct x; discriminate.
Qed.

Lemma amount_field_Raise (row : Series) (key : string) (e : exn) :
  amount_field row key = Raise e <->
  notna (get row key CNone) = true /\ float (get row key CNone) = Raise e.
Proof.
  unfold amount_field. destruct (notna (get row key CNone)).
  - destruct (float (get row key CNone)) as [x|e']; simpl.
    + split; [discriminate|]. intros [_ E]. discriminate.
    + split; [intros [= <-]; auto|]. intros [_ [= <-]]. reflexivity.
  - split; [discriminate|]. intros [E _]. discriminate.
Qed.

(** X5. The transformation of a row raises exactly when its [is_remote]
    is [pd.NA], or when [min_amount] or [max_amount] is present and
    [float] rejects it. *)
Theorem normalize_raises_iff (row : Series) (now : string) :
  (exists e, normalize row now = Raise e) <->
  (get row "is_remote" (CBool false) = CNA \/
   exists key, (key = "min_amount" \/ key = "max_amount") /\
     notna (get row key CNone) = true /\
     exists e, float (get row key CNone) = Raise e).
Proof.
  unfold normalize, job_data, has_amount, compensation.
  destruct (bool_ (get row "is_remote" (CBool false))) as [b|e0] eqn:Hb.
  - cbn [mbind result_bind].
    assert (get row "is_remote" (CBool false) <> CNA) as Hna
      by (intros E; rewrite E in Hb; discriminate).
    destruct (amount_field row "min_amount") as [lo|e1] eqn:Hlo.
    + destruct (amount_field row "max_amount") as [hi|e2] eqn:Hhi.
      * split.
        { intros [e He].
          destruct (notna (get row "min_amount" CNone)
                    || notna (get row "max_amount" CNone)); discriminate. }
        intros [E|(key & [->| ->] & Hk & e & He)]; [contradiction| |].
        { assert (amount_field row "min_amount" = Raise e) as E
            by (apply amount_field_Raise; auto). congruence. }
        { assert (amount_field row "max_amount" = Raise e) as E
            by (apply amount_field_Raise; auto). congruence. }
      * apply amount_field_Raise in Hhi as [Hk He].
        rewrite Hk, orb_true_r. cbn [mbind result_bind].
        split; [|eauto]. intros _. right. exists "max_amount". eauto.
    + apply amount_field_Raise in Hlo as [Hk He].
      rewrite Hk. cbn [orb mbind result_bind].
      split; [|eauto]. intros _. right. exists "min_amount". eauto.
  - apply bool_Raise in Hb as [E ->]. cbn [mbind result_bind].
    split; [auto|eauto].
Qed.

Lemma jobs_data_from_Raise (clk : nat -> string) (todo : list Series)
    (i : nat) (e : exn) :
  jobs_data_from clk i todo = Raise e <->
  exists (k : nat) (row : Series),
    todo !! k = Some row /\ normalize row (clk (i + k)%nat) = Raise e /\
    forall (j : nat) (r : Series), (j < k)%nat -> todo !! j = Some r ->
      exists d, normalize r (clk (i + j)%nat) = Ok d.
Proof.
  revert i e. induction todo as [|row rest IH]; intros i e;
    cbn [jobs_data_from].
  - split; [discriminate|]. intros (k & r & Hk & _). discriminate.
  - destruct (normalize row (clk i)) as [d|e'] eqn:Hn; cbn [mbind result_bind].
    + destruct (jobs_data_from clk (S i) rest) as [more|e'] eqn:Hmore;
        cbn [mbind result_bind].
      * split; [discriminate|].
        intros (k & r & Hk & Hr & Hbefore). destruct k as [|k].
        { injection Hk as <-. rewrite Nat.add_0_r in Hr. congruence. }
        assert (jobs_data_from clk (S i) rest = Raise e) as E; [|congruence].
        apply IH. exists k, r. split; [exact Hk|].
        replace (S i + k)%nat with (i + S k)%nat by lia.
        split; [exact Hr|]. intros j r' Hj Hr'.
        replace (S i + j)%nat with (i + S j)%nat by lia.
        apply (Hbefore (S j) r'); [lia|exact Hr'].
      * apply IH in Hmore as (k & r & Hk & Hr & Hbefore).
        split.
        { intros [= <-]. exists (S k), r. split; [exact Hk|].
          replace (i + S k)%nat with (S i + k)%nat by lia.
          split; [exact Hr|]. intros [|j] r' Hj Hr'.
          - injection Hr' as <-. rewrite Nat.add_0_r. eauto.
          - replace (i + S j)%nat with (S i + j)%nat by lia.
            apply (Hbefore j r'); [lia|exact Hr']. }
        intros (k' & r' & Hk' & Hr' & Hbefore'). f_equal.
        destruct k' as [|k'].
        { injection Hk' as <-. rewrite Nat.add_0_r in Hr'. congruence. }
        simpl in Hk'.
        replace (i + S k')%nat with (S i + k')%nat in Hr' by lia.
        destruct (Nat.lt_trichotomy k k') as [Hlt|[->|Hgt]].
        { destruct (Hbefore' (S k) r) as [d' Hd']; [lia|exact Hk|].
          replace (i + S k)%nat with (S i + k)%nat in Hd' by lia.
          congruence. }
        { congruence. }
        { destruct (Hbefore k' r') as [d' Hd']; [lia|exact Hk'|].
          congruence. }
    + split.
      * intros [= <-]. exists 0%nat, row. rewrite Nat.add_0_r.
        split; [reflexivity|]. split; [exact Hn|]. intros j r Hj. lia.
      * intros (k & r & Hk & Hr & Hbefore). f_equal. destruct k as [|k].
        { injection Hk as <-. rewrite Nat.add_0_r in Hr. congruence. }
        destruct (Hbefore 0%nat row) as [d Hd]; [lia|reflexivity|].
        rewrite Nat.add_0_r in Hd. congruence.
Qed.

(** X6. The loop raises the exception of the first row whose
    transformation raises: it raises [e] exactly when some row raises [e]
    and every row before it is normalized. *)
Theorem first_failing_row_decides (clk : nat -> string) (df : DataFrame)
    (e : exn) :
  jobs_data clk df = Raise e <->
  exists (k : nat) (row : Series),
    rows df !! k = Some row /\ normalize row (clk k) = Raise e /\
    forall (j : nat) (r : Series), (j < k)%nat -> rows df !! j = Some r ->
      exists d, normalize r (clk j) = Ok d.
Proof. apply (jobs_data_from_Raise clk (rows df) 0 e). Qed.

Lemma get_agree (row1 row2 : Series) (key : string) (default : cell) :
  row1 !! key = row2 !! key -> get row1 key default = get row2 key default.
Proof. unfold get. intros ->. reflexivity. Qed.

(** X7. Columns other than the twenty the loop reads never reach the
    output: two rows that agree on those twenty have the same listing, or
    raise the same exception. *)
Theorem unknown_columns_ignored (row1 row2 : Series) (now : string) :
  (forall key, In key known_columns -> row1 !! key = row2 !! key) ->
  normalize row1 now = normalize row2 now.
Proof.
  intros H.
  assert (forall key default, In key known_columns ->
            get row1 key default = get row2 key default) as Hget
    by (intros key default Hin; apply get_agree, H, Hin).
  unfold normalize, job_data, has_amount, compensation, str_field,
    nullable_field, amount_field, defaulted_field.
  repeat match goal with
         | |- context [get row1 ?key ?default] =>
             rewrite (Hget key default) by (simpl; tauto)
         end.
  reflexivity.
Qed.

(** X8. The clock is read into a listing only where the row has no
    [date_posted] column: when every row has one, the listings do not
    depend on the time at which the loop runs. *)
Theorem clock_only_for_missing_date_posted (clk1 clk2 : nat -> string)
    (df : DataFrame) :
  Forall (fun row : Series => is_Some (row !! "date_posted")) (rows df) ->
  jobs_data clk1 df = jobs_data clk2 df.
Proof.
  unfold jobs_data, iterrows. generalize 0%nat.
  induction (rows df) as [|row rest IH]; intros i Hall; [reflexivity|].
  apply Forall_cons in Hall as [[v Hv] Hrest].
  cbn [jobs_data_from]. rewrite (IH (S i) Hrest).
  assert (normalize row (clk1 i) = normalize row (clk2 i)) as ->;
    [|reflexivity].
  unfold normalize, job_data, str_field, get. rewrite Hv. reflexivity.
Qed.

(** ** Further properties: the whole script *)

(** The five ways [main] ends. *)
Lemma main_cases (a : args.t) (w : World) :
  (exists msg, scrape_jobs env (scrape_kwargs a) = inl msg /\
     main a w = (Raise (SystemExit 1), failed a (ScrapeError msg) w)) \/
  (exists df e, scrape_jobs env (scrape_kwargs a) = inr (Some df) /\
     empty df = false /\ jobs_data (clock env) df = Raise e /\
     main a w = (Raise (SystemExit 1), failed a e w)) \/
  (exists df jd, scrape_jobs env (scrape_kwargs a) = inr (Some df) /\
     empty df = false /\ jobs_data (clock env) df = Ok jd /\
     encodable (dumps (Some 2%nat) false (JList (map JDict jd))) = false /\
     main a w = (Raise (SystemExit 1), failed a UnicodeEncodeError w)) \/
  (exists jobs_df, scrape_jobs env (scrape_kwargs a) = inr jobs_df /\
     match jobs_df with Some df => empty df = true | None => True end /\
     main a w =
       (Ok tt, {| files := <[args.output a := lit "[]"]> (files w);
                  stderr := stderr (called a w) ++ [No_jobs_found];
                  calls := calls (called a w) |})) \/
  (exists df jd, scrape_jobs env (scrape_kwargs a) = inr (Some df) /\
     empty df = false /\ jobs_data (clock env) df = Ok jd /\
     encodable (dumps (Some 2%nat) false (JList (map JDict jd))) = true /\
     main a w =
       (Ok tt,
        {| files := <[args.output a :=
                        dumps (Some 2%nat) false (JList (map JDict jd))]>
                      (files w);
           stderr := stderr (called a w)
                     ++ [Successfully_scraped (length jd)];
           calls := calls (called a w) |})).
Proof.
  destruct (scrape_jobs env (scrape_kwargs a)) as [msg|[df|]] eqn:H.
  - left. exists msg. split; [reflexivity|]. apply main_scrape_raises, H.
  - destruct (empty df) eqn:Hne.
    + do 3 right. left. exists (Some df). split; [reflexivity|].
      split; [exact Hne|]. apply (main_no_jobs a w (Some df) H Hne).
    + destruct (jobs_data (clock env) df) as [jd|e] eqn:Hjd.
      * destruct (encodable (dumps (Some 2%nat) false
                               (JList (map JDict jd)))) eqn:Henc.
        { do 4 right. exists df, jd. repeat split; auto.
          apply (main_jobs a w df jd H Hne Hjd Henc). }
        { do 2 right. left. exists df, jd. repeat split; auto.
          apply (main_write_raises a w df jd H Hne Hjd Henc). }
      * right. left. exists df, e. repeat split; auto.
        apply (main_transform_raises a w df e H Hne Hjd).
  - do 3 right. left. exists None. split; [reflexivity|].
    split; [exact I|]. apply (main_no_jobs a w None H I).
Qed.

(** The run without one of the libraries. *)
Lemma run_missing_library (a : args.t) (w : World) :
  jobspy_installed env = false \/ pandas_installed env = false ->
  run a w =
    (1, {| files := files w;
           stderr := stderr w
                     ++ [if jobspy_installed env
                         then Required_libraries_not_found
                         else JobSpy_not_found];
           calls := calls w |}).
Proof.
  unfold run, script, try_except, import, mbind, M_bind.
  destruct (jobspy_installed env), (pandas_installed env);
    intros [E|E]; try discriminate E; reflexivity.
Qed.

(** X9. Without JobSpy, or without pandas, the process ends with status
    1 after printing one hint, the one about JobSpy when JobSpy is missing
    and the one about the required libraries otherwise; it writes no file
    and never calls the collaborator. *)
Theorem missing_library_hint_and_exit_1 (a : args.t) (w : World) :
  jobspy_installed env = false \/ pandas_installed env = false ->
  fst (run a w) = 1 /\
  files (snd (run a w)) = files w /\
  calls (snd (run a w)) = calls w /\
  stderr (snd (run a w)) =
    (stderr w ++ [if jobspy_installed env then Required_libraries_not_found
                  else JobSpy_not_found])%list.
Proof. intros H. rewrite (run_missing_library a w H). repeat split. Qed.

(** X10. When a run with both libraries installed ends with status 0, the
    output path holds a text that UTF-8 encodes, and that text is [[]] or
    what [json.dump] writes, with [indent=2], for one listing per row of
    the DataFrame the collaborator returned.  It is a JSON text of RFC
    8259 provided [float.__repr__] prints JSON numbers for the finite
    floats and the listings hold no NaN and no infinity. *)
Theorem status_0_leaves_parseable_output (a : args.t) (w : World) :
  jobspy_installed env = true -> pandas_installed env = true ->
  fst (run a w) = 0 ->
  exists content,
    files (snd (run a w)) !! args.output a = Some content /\
    encodable content = true /\
    (content = lit "[]" \/
     exists df jd,
       scrape_jobs env (scrape_kwargs a) = inr (Some df) /\
       jobs_data (clock env) df = Ok jd /\
       length jd = length (rows df) /\
       content = dumps (Some 2%nat) false (JList (map JDict jd))) /\
    ((forall s m e, is_number (lit (repr_finite s m e)) = true) ->
     (forall df jd, scrape_jobs env (scrape_kwargs a) = inr (Some df) ->
        jobs_data (clock env) df = Ok jd ->
        finite_json (JList (map JDict jd)) = true) ->
     json_text content).
Proof.
  intros H1 H2. rewrite (run_imports a w H1 H2).
  destruct (main_cases a w)
    as [(msg & H & ->)|[(df & e & H & Hne & Hjd & ->)
       |[(df & jd & H & Hne & Hjd & Henc & ->)
       |[(jobs_df & H & Hjobs & ->)
       |(df & jd & H & Hne & Hjd & Henc & ->)]]]];
    cbn [fst snd exit_status files]; try discriminate; intros _; eexists;
    (split; [apply lookup_insert_eq|]).
  - split; [reflexivity|]. split; [left; reflexivity|].
    intros Hrepr _.
    apply (dumps_text None true (JList []) Hrepr); reflexivity.
  - split; [exact Henc|]. split.
    + right. exists df, jd. repeat split; try assumption.
      apply (jobs_data_from_Ok (clock env) (rows df) 0 jd Hjd).
    + intros Hrepr Hfin. apply dumps_text; [exact Hrepr|eauto|].
      rewrite <- (dumps_encodable (Some 2%nat)). exact Henc.
Qed.

(** X11. A run changes no file but the one at the output path, and it
    only adds to what was printed and to the calls made before. *)
Theorem run_touches_only_the_output_file (a : args.t) (w : World)
    (path : string) :
  path <> args.output a ->
  files (snd (run a w)) !! path = files w !! path /\
  (exists printed, stderr (snd (run a w)) = (stderr w ++ printed)%list) /\
  (exists made, calls (snd (run a w)) = (calls w ++ made)%list).
Proof.
  intros Hpath.
  destruct (jobspy_installed env) eqn:H1;
    [destruct (pandas_installed env) eqn:H2|].
  - rewrite (run_imports a w H1 H2).
    destruct (main_cases a w)
      as [(msg & H & ->)|[(df & e & H & Hne & Hjd & ->)
         |[(df & jd & H & Hne & Hjd & Henc & ->)
         |[(jobs_df & H & Hjobs & ->)
         |(df & jd & H & Hne & Hjd & Henc & ->)]]]];
      cbn [fst snd failed called files stderr calls];
      (split; [apply lookup_insert_ne; congruence|]);
      rewrite <- ?app_assoc; eauto.
  - rewrite (run_missing_library a w (or_intror H2)).
    cbn [snd files stderr calls]. split; [reflexivity|].
    split; [eauto|]. exists []. rewrite app_nil_r. reflexivity.
  - rewrite (run_missing_library a w (or_introl H1)).
    cbn [snd files stderr calls]. split; [reflexivity|].
    split; [eauto|]. exists []. rewrite app_nil_r. reflexivity.
Qed.

(** X12. With both libraries installed a run calls the collaborator
    exactly once, whatever follows: with the sites of [--sites], the query
    and the location as given, [--max-jobs] as the number of results
    wanted, 168 hours and the country USA. *)
Theorem collaborator_called_exactly_once (a : args.t) (w : World) :
  jobspy_installed env = true -> pandas_installed env = true ->
  exists kw,
    calls (snd (run a w)) = (calls w ++ [kw])%list /\
    kwargs.site_name kw = map strip (split_comma (args.sites a)) /\
    kwargs.search_term kw = args.query a /\
    kwargs.location kw = args.location a /\
    kwargs.results_wanted kw = args.max_jobs a /\
    kwargs.hours_old kw = 168 /\
    kwargs.country_indeed kw = "USA".
Proof.
  intros H1 H2. rewrite (run_imports a w H1 H2). exists (scrape_kwargs a).
  split; [|repeat split].
  destruct (main_cases a w)
    as [(msg & H & ->)|[(df & e & H & Hne & Hjd & ->)
       |[(df & jd & H & Hne & Hjd & Henc & ->)
       |[(jobs_df & H & Hjobs & ->)
       |(df & jd & H & Hne & Hjd & Henc & ->)]]]];
    reflexivity.
Qed.

(** X13. The output file is overwritten, not extended: with both
    libraries installed, the status of a run and the text it leaves at the
    output path do not depend on the files, the printed lines and the
    calls that were there before. *)
Theorem output_independent_of_earlier_state (a : args.t) (w1 w2 : World) :
  jobspy_installed env = true -> pandas_installed env = true ->
  fst (run a w1) = fst (run a w2) /\
  files (snd (run a w1)) !! args.output a =
  files (snd (run a w2)) !! args.output a.
Proof.
  intros H1 H2. rewrite (run_imports a w1 H1 H2), (run_imports a w2 H1 H2).
  destruct (main_cases a w1)
    as [(msg & H & ->)|[(df & e & H & Hne & Hjd & ->)
       |[(df & jd & H & Hne & Hjd & Henc & ->)
       |[(jobs_df & H & Hjobs & ->)
       |(df & jd & H & Hne & Hjd & Henc & ->)]]]].
  - rewrite (main_scrape_raises a w2 msg H).
    cbn [fst snd failed files]. rewrite !lookup_insert_eq. auto.
  - rewrite (main_transform_raises a w2 df e H Hne Hjd).
    cbn [fst snd failed files]. rewrite !lookup_insert_eq. auto.
  - rewrite (main_write_raises a w2 df jd H Hne Hjd Henc).
    cbn [fst snd failed files]. rewrite !lookup_insert_eq. auto.
  - rewrite (main_no_jobs a w2 jobs_df H Hjobs).
    cbn [fst snd files]. rewrite !lookup_insert_eq. auto.
  - rewrite (main_jobs a w2 df jd H Hne Hjd Henc).
    cbn [fst snd files]. rewrite !lookup_insert_eq. auto.
Qed.

(** X14. With both libraries installed the status is 0 or 1, and each of
    these ends the run with status 1: the collaborator raises; it returns
    a DataFrame that is not empty and has a row whose transformation
    raises; every row is transformed, but a string of some listing holds a
    code point that UTF-8 cannot encode, a lone surrogate, so that the
    write of line 81 raises.  A run that ends with status 0 has met none
    of the three. *)
Theorem failures_end_with_status_1 (a : args.t) (w : World) :
  jobspy_installed env = true -> pandas_installed env = true ->
  (fst (run a w) = 0 \/ fst (run a w) = 1) /\
  ((exists msg, scrape_jobs env (scrape_kwargs a) = inl msg) \/
   (exists df e, scrape_jobs env (scrape_kwargs a) = inr (Some df) /\
                 empty df = false /\
                 jobs_data (clock env) df = Raise e) \/
   (exists df jd, scrape_jobs env (scrape_kwargs a) = inr (Some df) /\
                  empty df = false /\
                  jobs_data (clock env) df = Ok jd /\
                  clean_json (JList (map JDict jd)) = false) ->
   fst (run a w) = 1) /\
  (fst (run a w) = 0 ->
   exists jobs_df,
     scrape_jobs env (scrape_kwargs a) = inr jobs_df /\
     match jobs_df with
     | None => True
     | Some df =>
         empty df = true \/
         exists jd, jobs_data (clock env) df = Ok jd /\
                    clean_json (JList (map JDict jd)) = true
     end).
Proof.
  intros H1 H2. rewrite (run_imports a w H1 H2).
  destruct (main_cases a w)
    as [(msg & H & ->)|[(df & e & H & Hne & Hjd & ->)
       |[(df & jd & H & Hne & Hjd & Henc & ->)
       |[(jobs_df & H & Hjobs & ->)
       |(df & jd & H & Hne & Hjd & Henc & ->)]]]];
    cbn [fst exit_status]; (split; [auto|]);
    (split; [try reflexivity|try discriminate]).
  - intros [(msg & E)|[(df & e & E & Hne & _)|(df & jd & E & Hne & _)]];
      [congruence| |]; rewrite E in H; injection H as <-;
      cbn iota in Hjobs; congruence.
  - intros _. exists jobs_df. split; [exact H|].
    destruct jobs_df as [df|]; [left; exact Hjobs|exact I].
  - rewrite dumps_encodable in Henc.
    intros [(msg & E)|[(df' & e & E & _ & Hjd')
                      |(df' & jd' & E & _ & Hjd' & Hclean)]];
      [congruence| |]; rewrite E in H; injection H as ->; congruence.
  - intros _. exists (Some df). split; [exact H|]. right. exists jd.
    rewrite dumps_encodable in Henc. auto.
Qed.

(** X15. What a run with both libraries installed prints, by the way it
    ends.  A run that ends with status 0 has printed two lines: the
    announcement with the query and the location, then the note that no
    jobs were found (for [None] and for an empty DataFrame) or the count
    of jobs, which is the number of rows of the DataFrame.  A run in which
    the collaborator raises, the transformation of a row raises, or the
    listings hold a string that UTF-8 cannot encode has printed the
    announcement and then the error line with that exception. *)
Theorem lines_printed_by_outcome (a : args.t) (w : World) :
  jobspy_installed env = true -> pandas_installed env = true ->
  (fst (run a w) = 0 ->
   exists jobs_df,
     scrape_jobs env (scrape_kwargs a) = inr jobs_df /\
     stderr (snd (run a w)) =
       stderr w
       ++ [Starting_job_scrape (args.query a) (args.location a);
           match jobs_df with
           | None => No_jobs_found
           | Some df =>
               if empty df then No_jobs_found
               else Successfully_scraped (length (rows df))
           end]) /\
  (forall msg, scrape_jobs env (scrape_kwargs a) = inl msg ->
     stderr (snd (run a w)) =
       stderr w
       ++ [Starting_job_scrape (args.query a) (args.location a);
           Error_during_job_scraping (ScrapeError msg)]) /\
  (forall df e, scrape_jobs env (scrape_kwargs a) = inr (Some df) ->
     empty df = false -> jobs_data (clock env) df = Raise e ->
     stderr (snd (run a w)) =
       stderr w
       ++ [Starting_job_scrape (args.query a) (args.location a);
           Error_during_job_scraping e]) /\
  (forall df jd, scrape_jobs env (scrape_kwargs a) = inr (Some df) ->
     empty df = false -> jobs_data (clock env) df = Ok jd ->
     clean_json (JList (map JDict jd)) = false ->
     stderr (snd (run a w)) =
       stderr w
       ++ [Starting_job_scrape (args.query a) (args.location a);
           Error_during_job_scraping UnicodeEncodeError]).
Proof.
  intros H1 H2. rewrite (run_imports a w H1 H2).
  split; [|split; [|split]].
  - destruct (main_cases a w)
      as [(msg & H & ->)|[(df & e & H & Hne & Hjd & ->)
         |[(df & jd & H & Hne & Hjd & Henc & ->)
         |[(jobs_df & H & Hjobs & ->)
         |(df & jd & H & Hne & Hjd & Henc & ->)]]]];
      cbn [fst snd exit_status called stderr]; try discriminate; intros _.
    + exists jobs_df. split; [exact H|]. rewrite <- app_assoc.
      destruct jobs_df as [df|]; [rewrite Hjobs|]; reflexivity.
    + exists (Some df). split; [exact H|]. rewrite <- app_assoc, Hne.
      destruct (jobs_data_from_Ok _ _ _ _ Hjd) as [-> _]. reflexivity.
  - intros msg H. rewrite (main_scrape_raises a w msg H).
    cbn [snd failed called stderr]. rewrite <- app_assoc. reflexivity.
  - intros df e H Hne Hjd.
    rewrite (main_transform_raises a w df e H Hne Hjd).
    cbn [snd failed called stderr]. rewrite <- app_assoc. reflexivity.
  - intros df jd H Hne Hjd Hclean.
    rewrite <- (dumps_encodable (Some 2%nat)) in Hclean.
    rewrite (main_write_raises a w df jd H Hne Hjd Hclean).
    cbn [snd failed called stderr]. rewrite <- app_assoc. reflexivity.
Qed.

(** When argparse returns a namespace, the run is the run from that
    namespace. *)
Lemma run_argv_parsed (parse_args : list string -> Z + args.t)
    (argv : list string) (a : args.t) (w : World) :
  parse_args argv = inr a -> run_argv parse_args argv w = run a w.
Proof.
  intros H. unfold run_argv, script_argv, main_argv, run, script.
  rewrite H. reflexivity.
Qed.

(** X16. When argparse rejects the command line (or prints its help), the
    process ends with the status argparse chose and the script has done
    nothing: no file is written, nothing is printed by the script, and the
    collaborator is not called. *)
Theorem usage_error_before_any_effect
    (parse_args : list string -> Z + args.t) (argv : list string)
    (code : Z) (w : World) :
  jobspy_installed env = true -> pandas_installed env = true ->
  parse_args argv = inl code ->
  run_argv parse_args argv w = (code, w).
Proof.
  intros H1 H2 H.
  unfold run_argv, script_argv, main_argv, try_except, import, mbind, M_bind.
  rewrite H1, H2, H. reflexivity.
Qed.

(** X17. The libraries are imported before the command line is parsed:
    without JobSpy or without pandas the run ends with status 1 and the
    hint, whatever the command line is, a request for help included. *)
Theorem libraries_checked_before_command_line
    (parse_args : list string -> Z + args.t) (argv : list string)
    (w : World) :
  jobspy_installed env = false \/ pandas_installed env = false ->
  run_argv parse_args argv w =
    (1, {| files := files w;
           stderr := (stderr w
                      ++ [if jobspy_installed env
                          then Required_libraries_not_found
                          else JobSpy_not_found])%list;
           calls := calls w |}).
Proof.
  unfold run_argv, script_argv, try_except, import, mbind, M_bind.
  destruct (jobspy_installed env), (pandas_installed env);
    intros [E|E]; try discriminate E; reflexivity.
Qed.

(** ** Further properties: the text written (line 81) *)

Lemma escape_literal (c : N) :
  literal_char c = true -> escape false c = [c].
Proof.
  unfold literal_char, escape.
  destruct (N.leb_spec 32 c) as [Hle|]; [|discriminate].
  destruct (N.eqb_spec c 34); [discriminate|].
  destruct (N.eqb_spec c 92); [discriminate|].
  intros _.
  repeat match goal with
         | |- context [(c =? ?k)%N] =>
             destruct (N.eqb_spec c k); [lia|]
         end.
  destruct (N.ltb_spec c 32); [lia|]. reflexivity.
Qed.

(** X18. With [ensure_ascii=False] a string without control characters,
    quotation marks and backslashes is written as it is between two
    quotation marks; characters beyond ASCII are not escaped. *)
Theorem literal_strings_written_verbatim (s : text) :
  forallb literal_char s = true ->
  encode_str false s = quote :: s ++ [quote].
Proof.
  intros H. unfold encode_str. f_equal. f_equal.
  induction s as [|c s IH]; [reflexivity|].
  simpl in H. apply andb_true_iff in H as [Hc Hs].
  simpl. rewrite (escape_literal c Hc), (IH Hs). reflexivity.
Qed.

End Script.

(** ** The model on concrete inputs *)

(** The two floats above are the integers they stand for. *)
Lemma f80000_value :
  float_of_int 80000 = Ok f80000 /\ float_of_int 120000 = Ok f120000 /\
  5497558138880000 = 80000 * 2 ^ 36 /\ 8246337208320000 = 120000 * 2 ^ 36.
Proof. repeat split; vm_compute; reflexivity. Qed.

(** The scenario of the specification: the listing of the row with title
    Engineer, company Acme and amounts 80000 and 120000. *)
Lemma scenario_normalized :
  normalize example_repr_finite example_float_of_str scenario_row example_now
  = Ok scenario_listing.
Proof. vm_compute. reflexivity. Qed.

Lemma plain_normalized :
  normalize example_repr_finite example_float_of_str plain_row example_now
  = Ok plain_listing.
Proof. vm_compute. reflexivity. Qed.

Lemma compensation_key_iff_amount_present_witness :
  (has_key scenario_listing "compensation" = true <->
   notna (get scenario_row "min_amount" CNone) = true \/
   notna (get scenario_row "max_amount" CNone) = true) /\
  (notna (get scenario_row "min_amount" CNone) = false ->
   notna (get scenario_row "max_amount" CNone) = false ->
   dict_get scenario_listing "compensation" = None).
Proof.
  apply (compensation_key_iff_amount_present example_repr_finite
           example_float_of_str scenario_row example_now scenario_listing).
  vm_compute. reflexivity.
Defined.

(** C3 as stated fails: a NaN title is missing, and the listing holds the
    string [nan] under [title], not [null]. *)
Lemma nan_title_is_the_string_nan :
  exists d,
    normalize example_repr_finite example_float_of_str nan_title_row
      example_now = Ok d /\
    notna (get nan_title_row "title" CNone) = false /\
    dict_get d "title" = Some (JStr (lit "nan")) /\
    dict_get d "title" <> Some JNull.
Proof.
  eexists. split; [vm_compute; reflexivity|].
  split; [reflexivity|]. split; [reflexivity|]. discriminate.
Qed.

Lemma nullable_fields_null_when_missing_witness :
  (forall key, In key nullable_keys ->
     (notna (get scenario_row key CNone) = false ->
      dict_get scenario_listing key = Some JNull) /\
     (notna (get scenario_row key CNone) = true ->
      dict_get scenario_listing key =
        Some (JStr (str example_repr_finite (get scenario_row key CNone)))))
  /\
  (forall key default, In (key, default) (string_defaults example_now) ->
     exists s, dict_get scenario_listing key = Some (JStr s) /\
               (scenario_row !! key = None -> s = lit default)).
Proof.
  apply (nullable_fields_null_when_missing example_repr_finite
           example_float_of_str scenario_row example_now scenario_listing).
  vm_compute. reflexivity.
Defined.

Lemma compensation_amounts_and_defaults_witness :
  exists lo hi interval currency,
    dict_get scenario_listing "compensation" =
      Some (JDict [("min_amount", lo); ("max_amount", hi);
                   ("interval", JStr interval);
                   ("currency", JStr currency)]) /\
    (if notna (get scenario_row "min_amount" CNone)
     then exists x,
            float example_float_of_str (get scenario_row "min_amount" CNone)
            = Ok x /\ lo = JFloat x
     else lo = JNull) /\
    (if notna (get scenario_row "max_amount" CNone)
     then exists x,
            float example_float_of_str (get scenario_row "max_amount" CNone)
            = Ok x /\ hi = JFloat x
     else hi = JNull) /\
    interval = (if notna (get scenario_row "interval" CNone)
                then str example_repr_finite
                       (get scenario_row "interval" CNone)
                else lit "yearly") /\
    currency = (if notna (get scenario_row "currency" CNone)
                then str example_repr_finite
                       (get scenario_row "currency" CNone)
                else lit "USD").
Proof.
  apply (compensation_amounts_and_defaults example_repr_finite
           example_float_of_str scenario_row example_now scenario_listing).
  - vm_compute. reflexivity.
  - left. vm_compute. reflexivity.
Defined.

(** In the scenario the amounts come out as 80000.0 and 120000.0, with the
    two defaults. *)
Lemma scenario_compensation :
  dict_get scenario_listing "compensation" =
    Some (JDict [("min_amount", JFloat f80000);
                 ("max_amount", JFloat f120000);
                 ("interval", JStr (lit "yearly")); ("currency", JStr (lit "USD"))]).
Proof. reflexivity. Qed.

Lemma description_is_first_5000_characters_witness :
  let input :=
    str example_repr_finite (get long_row "description" (CStr (lit ""))) in
  exists description,
    dict_get long_listing "description" = Some (JStr description) /\
    description = slice_to 5000 input /\
    (length description <= 5000)%nat /\
    length description = Nat.min 5000 (length input) /\
    (exists rest, input = description ++ rest) /\
    ((length input <= 5000)%nat -> description = input).
Proof.
  apply (description_is_first_5000_characters example_repr_finite
           example_float_of_str long_row example_now long_listing).
  vm_compute. reflexivity.
Defined.

(** C8 fails on the code: a NaN under [is_remote] is a missing value, and
    the listing says [true]. *)
Lemma nan_is_remote_is_true :
  exists d,
    normalize example_repr_finite example_float_of_str nan_remote_row
      example_now = Ok d /\
    notna (get nan_remote_row "is_remote" CNone) = false /\
    dict_get d "is_remote" = Some (JBool true).
Proof.
  eexists. split; [vm_compute; reflexivity|]. split; reflexivity.
Qed.

Lemma exception_writes_empty_array_and_exits_1_witness :
  fst (run example_repr_finite example_float_of_str
         (example_env (inl "connection refused")) example_args fresh_world)
  = 1 /\
  files (snd (run example_repr_finite example_float_of_str
                (example_env (inl "connection refused")) example_args
                fresh_world))
    !! args.output example_args = Some (lit "[]").
Proof.
  apply (exception_writes_empty_array_and_exits_1 example_repr_finite
           example_float_of_str (example_env (inl "connection refused"))
           example_args fresh_world);
    [reflexivity|reflexivity|].
  left. exists "connection refused". reflexivity.
Defined.

(** The same for an exception of the transformation: [bool(pd.NA)]. *)
Lemma NA_row_run :
  run example_repr_finite example_float_of_str
    (example_env (inr (Some na_remote_df))) example_args fresh_world
  = (1, {| files := {["jobs.json" := lit "[]"]};
           stderr := [Starting_job_scrape "engineer" "Vienna";
                      Error_during_job_scraping TypeError];
           calls := [{| kwargs.site_name := ["indeed"; "linkedin"];
                        kwargs.search_term := "engineer";
                        kwargs.location := "Vienna";
                        kwargs.results_wanted := 50;
                        kwargs.hours_old := 168;
                        kwargs.country_indeed := "USA" |}] |}).
Proof. vm_compute. reflexivity. Qed.

Lemma no_jobs_writes_empty_array_and_exits_0_witness :
  fst (run example_repr_finite example_float_of_str
         (example_env (inr None)) example_args fresh_world) = 0 /\
  files (snd (run example_repr_finite example_float_of_str
                (example_env (inr None)) example_args fresh_world))
    !! args.output example_args = Some (lit "[]").
Proof.
  apply (no_jobs_writes_empty_array_and_exits_0 example_repr_finite
           example_float_of_str (example_env (inr None)) example_args
           fresh_world);
    [reflexivity|reflexivity|].
  left. reflexivity.
Defined.

(** C5 as stated fails: the DataFrame has one row and is not empty, the
    transformation raises, and the file holds [[]], which is not the text
    of a list of one element. *)
Lemma NA_row_leaves_empty_array :
  empty na_remote_df = false /\
  length (rows na_remote_df) = 1%nat /\
  fst (run example_repr_finite example_float_of_str
         (example_env (inr (Some na_remote_df))) example_args fresh_world)
  = 1 /\
  files (snd (run example_repr_finite example_float_of_str
                (example_env (inr (Some na_remote_df))) example_args
                fresh_world))
    !! "jobs.json" = Some (lit "[]") /\
  (forall items,
     dumps example_repr_finite (Some 2%nat) false (JList items) = lit "[]" ->
     length items = 0%nat).
Proof.
  rewrite NA_row_run. repeat split.
  intros [|item items]; [reflexivity|]. discriminate.
Qed.

Lemma jobs_written_one_per_row_in_order_witness :
  let content :=
    dumps example_repr_finite (Some 2%nat) false
      (JList (map JDict [plain_listing])) in
  fst (run example_repr_finite example_float_of_str
         (example_env (inr (Some plain_df))) example_args fresh_world) = 0 /\
  files (snd (run example_repr_finite example_float_of_str
                (example_env (inr (Some plain_df))) example_args
                fresh_world))
    !! args.output example_args = Some content /\
  length [plain_listing] = length (rows plain_df) /\
  (forall (k : nat) (row : Series), rows plain_df !! k = Some row ->
     exists d, [plain_listing] !! k = Some d /\
               normalize example_repr_finite example_float_of_str row
                 (clock (example_env (inr (Some plain_df))) k) = Ok d) /\
  ((forall s m e, is_number (lit (example_repr_finite s m e)) = true) ->
   finite_json (JList (map JDict [plain_listing])) = true ->
   json_text content).
Proof.
  apply (jobs_written_one_per_row_in_order example_repr_finite
           example_float_of_str (example_env (inr (Some plain_df)))
           example_args fresh_world plain_df [plain_listing]);
    vm_compute; reflexivity.
Defined.

(** The file written for [plain_df] is a JSON text. *)
Lemma plain_output_is_json :
  json_text
    (dumps example_repr_finite (Some 2%nat) false
       (JList (map JDict [plain_listing]))).
Proof. apply dumps_text; reflexivity. Qed.

(** A title that holds a lone surrogate: every row is normalized, the
    write of line 81 raises [UnicodeEncodeError], and the handler leaves
    [[]] and status 1. *)
Lemma surrogate_title_run :
  jobs_data example_repr_finite example_float_of_str
    (clock (example_env (inr (Some surrogate_df)))) surrogate_df
  = Ok [surrogate_listing] /\
  run example_repr_finite example_float_of_str
    (example_env (inr (Some surrogate_df))) example_args fresh_world
  = (1, {| files := {["jobs.json" := lit "[]"]};
           stderr := [Starting_job_scrape "engineer" "Vienna";
                      Error_during_job_scraping UnicodeEncodeError];
           calls := [{| kwargs.site_name := ["indeed"; "linkedin"];
                        kwargs.search_term := "engineer";
                        kwargs.location := "Vienna";
                        kwargs.results_wanted := 50;
                        kwargs.hours_old := 168;
                        kwargs.country_indeed := "USA" |}] |}).
Proof. split; vm_compute; reflexivity. Qed.

Lemma experience_level_never_forwarded_witness :
  scrape_kwargs example_args = scrape_kwargs senior_args /\
  calls (snd (run example_repr_finite example_float_of_str
                (example_env (inr (Some plain_df))) example_args
                fresh_world)) =
  calls (snd (run example_repr_finite example_float_of_str
                (example_env (inr (Some plain_df))) senior_args
                fresh_world)) /\
  run example_repr_finite example_float_of_str
    (example_env (inr (Some plain_df))) example_args fresh_world =
  run example_repr_finite example_float_of_str
    (example_env (inr (Some plain_df))) senior_args fresh_world.
Proof.
  apply (experience_level_never_forwarded example_repr_finite
           example_float_of_str (example_env (inr (Some plain_df)))
           example_args senior_args fresh_world).
  repeat split.
Defined.

Lemma job_type_has_no_effect_witness :
  scrape_kwargs example_args = scrape_kwargs fulltime_args /\
  run example_repr_finite example_float_of_str
    (example_env (inr (Some plain_df))) example_args fresh_world =
  run example_repr_finite example_float_of_str
    (example_env (inr (Some plain_df))) fulltime_args fresh_world.
Proof.
  apply (job_type_has_no_effect example_repr_finite example_float_of_str
           (example_env (inr (Some plain_df))) example_args fulltime_args
           fresh_world).
  repeat split.
Defined.

(** ** The further properties on concrete inputs *)

Lemma listing_keys_fixed_witness :
  map fst scenario_listing =
    (["title"; "company"; "company_url"; "job_url"; "location"; "city";
      "state"; "country"; "is_remote"; "job_type"; "date_posted";
      "description"; "site"; "job_level"; "company_industry";
      "salary_source"]
     ++ (if has_amount scenario_row then ["compensation"] else []))%list /\
  NoDup (map fst scenario_listing).
Proof.
  apply (listing_keys_fixed example_repr_finite example_float_of_str
           scenario_row example_now scenario_listing).
  vm_compute. reflexivity.
Defined.

Lemma is_remote_coerced_to_bool_witness :
  exists b,
    dict_get scenario_listing "is_remote" = Some (JBool b) /\
    bool_ (get scenario_row "is_remote" (CBool false)) = Ok b /\
    (scenario_row !! "is_remote" = None \/
     (exists v, scenario_row !! "is_remote" = Some v /\
                In v [CNone; CBool false; CInt 0; CStr (lit "");
                      CFloat (S754_zero false); CFloat (S754_zero true)]) ->
     b = false).
Proof.
  apply (is_remote_coerced_to_bool example_repr_finite example_float_of_str
           scenario_row example_now scenario_listing).
  vm_compute. reflexivity.
Defined.

Lemma unknown_columns_ignored_witness :
  normalize example_repr_finite example_float_of_str scenario_row_with_extra
    example_now =
  normalize example_repr_finite example_float_of_str scenario_row
    example_now.
Proof.
  apply (unknown_columns_ignored example_repr_finite example_float_of_str
           scenario_row_with_extra scenario_row example_now).
  intros key Hin. unfold known_columns in Hin. simpl in Hin.
  repeat (destruct Hin as [<-|Hin]; [vm_compute; reflexivity|]).
  contradiction.
Defined.

Lemma clock_only_for_missing_date_posted_witness :
  jobs_data example_repr_finite example_float_of_str
    (fun _ => "2024-05-01T12:00:00") dated_df =
  jobs_data example_repr_finite example_float_of_str
    (fun _ => "2031-01-01T00:00:00") dated_df.
Proof.
  apply (clock_only_for_missing_date_posted example_repr_finite
           example_float_of_str).
  constructor; [|constructor]. exists (CDate "2024-04-30").
  vm_compute. reflexivity.
Defined.

Lemma missing_library_hint_and_exit_1_witness :
  fst (run example_repr_finite example_float_of_str bare_env example_args
         used_world) = 1 /\
  files (snd (run example_repr_finite example_float_of_str bare_env
                example_args used_world)) = files used_world /\
  calls (snd (run example_repr_finite example_float_of_str bare_env
                example_args used_world)) = calls used_world /\
  stderr (snd (run example_repr_finite example_float_of_str bare_env
                 example_args used_world)) =
    (stderr used_world
     ++ [if jobspy_installed bare_env then Required_libraries_not_found
         else JobSpy_not_found])%list.
Proof.
  apply (missing_library_hint_and_exit_1 example_repr_finite
           example_float_of_str bare_env example_args used_world).
  left. reflexivity.
Defined.

Lemma status_0_leaves_parseable_output_witness :
  exists content,
    files (snd (run example_repr_finite example_float_of_str
                  (example_env (inr (Some plain_df))) example_args
                  used_world))
      !! args.output example_args = Some content /\
    encodable content = true /\
    (content = lit "[]" \/
     exists df jd,
       scrape_jobs (example_env (inr (Some plain_df)))
         (scrape_kwargs example_args) = inr (Some df) /\
       jobs_data example_repr_finite example_float_of_str
         (clock (example_env (inr (Some plain_df)))) df = Ok jd /\
       length jd = length (rows df) /\
       content = dumps example_repr_finite (Some 2%nat) false
                   (JList (map JDict jd))) /\
    ((forall s m e, is_number (lit (example_repr_finite s m e)) = true) ->
     (forall df jd,
        scrape_jobs (example_env (inr (Some plain_df)))
          (scrape_kwargs example_args) = inr (Some df) ->
        jobs_data example_repr_finite example_float_of_str
          (clock (example_env (inr (Some plain_df)))) df = Ok jd ->
        finite_json (JList (map JDict jd)) = true) ->
     json_text content).
Proof.
  apply (status_0_leaves_parseable_output example_repr_finite
           example_float_of_str (example_env (inr (Some plain_df)))
           example_args used_world); vm_compute; reflexivity.
Defined.

Lemma run_touches_only_the_output_file_witness :
  files (snd (run example_repr_finite example_float_of_str
                (example_env (inr (Some plain_df))) example_args
                used_world)) !! "notes.txt" =
  files used_world !! "notes.txt" /\
  (exists printed,
     stderr (snd (run example_repr_finite example_float_of_str
                    (example_env (inr (Some plain_df))) example_args
                    used_world)) = (stderr used_world ++ printed)%list) /\
  (exists made,
     calls (snd (run example_repr_finite example_float_of_str
                   (example_env (inr (Some plain_df))) example_args
                   used_world)) = (calls used_world ++ made)%list).
Proof.
  apply (run_touches_only_the_output_file example_repr_finite
           example_float_of_str (example_env (inr (Some plain_df)))
           example_args used_world "notes.txt").
  discriminate.
Defined.

Lemma collaborator_called_exactly_once_witness :
  exists kw,
    calls (snd (run example_repr_finite example_float_of_str
                  (example_env (inl "connection refused")) example_args
                  fresh_world)) = (calls fresh_world ++ [kw])%list /\
    kwargs.site_name kw = map strip (split_comma (args.sites example_args))
    /\ kwargs.search_term kw = args.query example_args /\
    kwargs.location kw = args.location example_args /\
    kwargs.results_wanted kw = args.max_jobs example_args /\
    kwargs.hours_old kw = 168 /\
    kwargs.country_indeed kw = "USA".
Proof.
  apply (collaborator_called_exactly_once example_repr_finite
           example_float_of_str (example_env (inl "connection refused"))
           example_args fresh_world); reflexivity.
Defined.

Lemma output_independent_of_earlier_state_witness :
  fst (run example_repr_finite example_float_of_str
         (example_env (inr (Some plain_df))) example_args fresh_world) =
  fst (run example_repr_finite example_float_of_str
         (example_env (inr (Some plain_df))) example_args used_world) /\
  files (snd (run example_repr_finite example_float_of_str
                (example_env (inr (Some plain_df))) example_args
                fresh_world)) !! args.output example_args =
  files (snd (run example_repr_finite example_float_of_str
                (example_env (inr (Some plain_df))) example_args
                used_world)) !! args.output example_args.
Proof.
  apply (output_independent_of_earlier_state example_repr_finite
           example_float_of_str (example_env (inr (Some plain_df)))
           example_args fresh_world used_world); reflexivity.
Defined.

Lemma failures_end_with_status_1_witness :
  (fst (run example_repr_finite example_float_of_str
          (example_env (inr (Some surrogate_df))) example_args fresh_world)
   = 0 \/
   fst (run example_repr_finite example_float_of_str
          (example_env (inr (Some surrogate_df))) example_args fresh_world)
   = 1) /\
  ((exists msg,
      scrape_jobs (example_env (inr (Some surrogate_df)))
        (scrape_kwargs example_args) = inl msg) \/
   (exists df e,
      scrape_jobs (example_env (inr (Some surrogate_df)))
        (scrape_kwargs example_args) = inr (Some df) /\
      empty df = false /\
      jobs_data example_repr_finite example_float_of_str
        (clock (example_env (inr (Some surrogate_df)))) df = Raise e) \/
   (exists df jd,
      scrape_jobs (example_env (inr (Some surrogate_df)))
        (scrape_kwargs example_args) = inr (Some df) /\
      empty df = false /\
      jobs_data example_repr_finite example_float_of_str
        (clock (example_env (inr (Some surrogate_df)))) df = Ok jd /\
      clean_json (JList (map JDict jd)) = false) ->
   fst (run example_repr_finite example_float_of_str
          (example_env (inr (Some surrogate_df))) example_args fresh_world)
   = 1) /\
  (fst (run example_repr_finite example_float_of_str
          (example_env (inr (Some surrogate_df))) example_args fresh_world)
   = 0 ->
   exists jobs_df,
     scrape_jobs (example_env (inr (Some surrogate_df)))
       (scrape_kwargs example_args) = inr jobs_df /\
     match jobs_df with
     | None => True
     | Some df =>
         empty df = true \/
         exists jd,
           jobs_data example_repr_finite example_float_of_str
             (clock (example_env (inr (Some surrogate_df)))) df = Ok jd /\
           clean_json (JList (map JDict jd)) = true
     end).
Proof.
  apply (failures_end_with_status_1 example_repr_finite
           example_float_of_str (example_env (inr (Some surrogate_df)))
           example_args fresh_world);
    reflexivity.
Defined.

Lemma lines_printed_by_outcome_witness :
  (fst (run example_repr_finite example_float_of_str
          (example_env (inr (Some plain_df))) example_args used_world) = 0 ->
   exists jobs_df,
     scrape_jobs (example_env (inr (Some plain_df)))
       (scrape_kwargs example_args) = inr jobs_df /\
     stderr (snd (run example_repr_finite example_float_of_str
                    (example_env (inr (Some plain_df))) example_args
                    used_world)) =
       stderr used_world
       ++ [Starting_job_scrape (args.query example_args)
             (args.location example_args);
           match jobs_df with
           | None => No_jobs_found
           | Some df =>
               if empty df then No_jobs_found
               else Successfully_scraped (length (rows df))
           end]) /\
  (forall msg,
     scrape_jobs (example_env (inr (Some plain_df)))
       (scrape_kwargs example_args) = inl msg ->
     stderr (snd (run example_repr_finite example_float_of_str
                    (example_env (inr (Some plain_df))) example_args
                    used_world)) =
       stderr used_world
       ++ [Starting_job_scrape (args.query example_args)
             (args.location example_args);
           Error_during_job_scraping (ScrapeError msg)]) /\
  (forall df e,
     scrape_jobs (example_env (inr (Some plain_df)))
       (scrape_kwargs example_args) = inr (Some df) ->
     empty df = false ->
     jobs_data example_repr_finite example_float_of_str
       (clock (example_env (inr (Some plain_df)))) df = Raise e ->
     stderr (snd (run example_repr_finite example_float_of_str
                    (example_env (inr (Some plain_df))) example_args
                    used_world)) =
       stderr used_world
       ++ [Starting_job_scrape (args.query example_args)
             (args.location example_args);
           Error_during_job_scraping e]) /\
  (forall df jd,
     scrape_jobs (example_env (inr (Some plain_df)))
       (scrape_kwargs example_args) = inr (Some df) ->
     empty df = false ->
     jobs_data example_repr_finite example_float_of_str
       (clock (example_env (inr (Some plain_df)))) df = Ok jd ->
     clean_json (JList (map JDict jd)) = false ->
     stderr (snd (run example_repr_finite example_float_of_str
                    (example_env (inr (Some plain_df))) example_args
                    used_world)) =
       stderr used_world
       ++ [Starting_job_scrape (args.query example_args)
             (args.location example_args);
           Error_during_job_scraping UnicodeEncodeError]).
Proof.
  apply (lines_printed_by_outcome example_repr_finite example_float_of_str
           (example_env (inr (Some plain_df))) example_args used_world);
    reflexivity.
Defined.

Lemma usage_error_before_any_effect_witness :
  run_argv example_repr_finite example_float_of_str
    (example_env (inr (Some plain_df))) example_parse_args [] used_world
  = (2, used_world).
Proof.
  apply (usage_error_before_any_effect example_repr_finite
           example_float_of_str (example_env (inr (Some plain_df)))
           example_parse_args [] 2 used_world); reflexivity.
Defined.

Lemma libraries_checked_before_command_line_witness :
  run_argv example_repr_finite example_float_of_str bare_env
    example_parse_args ["--help"] used_world =
    (1, {| files := files used_world;
           stderr := (stderr used_world
                      ++ [if jobspy_installed bare_env
                          then Required_libraries_not_found
                          else JobSpy_not_found])%list;
           calls := calls used_world |}).
Proof.
  apply (libraries_checked_before_command_line example_repr_finite
           example_float_of_str bare_env example_parse_args ["--help"]
           used_world).
  left. reflexivity.
Defined.

Lemma literal_strings_written_verbatim_witness :
  encode_str false cafe = quote :: cafe ++ [quote].
Proof.
  apply (literal_strings_written_verbatim cafe). vm_compute. reflexivity.
Defined.
